(** * Sidebar: the collapse/expand logic of [Sidebar.tsx]

    A shallow embedding of the class [Sidebar] of
    [src/components/core/Sidebar/Sidebar.tsx]: its two static helpers
    ([calculateMaxBreakpoint], [shouldCollapse]), its constructor, its
    lifecycle methods and its event handlers, over a small model of the
    parts of the JavaScript runtime and of the DOM that these read and write.

    JavaScript numbers are IEEE 754 binary64 values; they are modelled by
    Rocq's primitive floats, which are the same format with the same
    rounding, so [-], [<] and [<=] below are the very operations the
    browser performs. *)

From Stdlib Require Import ZArith Bool List String Ascii Floats Lia.
Import ListNotations.

Local Open Scope bool_scope.

(** ** The JavaScript runtime: numbers, truthiness, [parseInt] *)

Module JS.

Local Open Scope Z_scope.

(** The Number value of a mathematical integer: the nearest binary64,
    ties to even. *)
Definition ofInteger (z : Z) : float :=
  SF2Prim (binary_normalize prec emax z 0 false).

(** [ToBoolean] on a Number: [+0], [-0] and [NaN] are falsy. *)
Definition truthy (x : float) : bool := negb (is_zero x || is_nan x).

(** A string is its sequence of code units, each below 256 here. Of the
    [WhiteSpace] and [LineTerminator] code points that [parseInt] skips,
    these are below 256: TAB, LF, VT, FF, CR (9 to 13), SPACE (32) and
    NO-BREAK SPACE (160). *)
Definition isWhiteSpace (c : ascii) : bool :=
  let n := N_of_ascii c in
  ((9 <=? n) && (n <=? 13) || (n =? 32) || (n =? 160))%N.

Fixpoint trimStart (s : string) : string :=
  match s with
  | String c r => if isWhiteSpace c then trimStart r else s
  | EmptyString => EmptyString
  end.

(** The value of a code unit read as a digit: [0-9], then [a-z] or [A-Z]
    for ten to thirty-five. *)
Definition digitValue (c : ascii) : option Z :=
  let n := Z.of_N (N_of_ascii c) in
  if (48 <=? n) && (n <=? 57) then Some (n - 48)
  else if (97 <=? n) && (n <=? 122) then Some (n - 87)
  else if (65 <=? n) && (n <=? 90) then Some (n - 55)
  else None.

Definition radixDigit (R : Z) (c : ascii) : option Z :=
  match digitValue c with
  | Some d => if d <? R then Some d else None
  | None => None
  end.

(** Reads the longest prefix of radix-[R] digits, most significant first.
    [acc] is [None] until a digit has been read. *)
Fixpoint readDigits (R : Z) (s : string) (acc : option Z) : option Z :=
  match s with
  | String c r =>
      match radixDigit R c with
      | Some d =>
          readDigits R r
            (Some (match acc with Some a => a * R + d | None => d end))
      | None => acc
      end
  | EmptyString => acc
  end.

Definition stripSign (s : string) : bool * string :=
  match s with
  | String "-" r => (true, r)
  | String "+" r => (false, r)
  | _ => (false, s)
  end.

Definition stripHexPrefix (s : string) : option string :=
  match s with
  | String "0" (String "x" r) => Some r
  | String "0" (String "X" r) => Some r
  | _ => None
  end.

(** The global [parseInt(string, radix)] of ECMAScript, for an integer
    [radix]: leading white space is skipped, a sign is read, a radix of
    zero means ten (sixteen after a [0x] prefix), and the longest prefix
    of digits is the result; no digit at all gives [NaN]. *)
Definition parseInt (inputString : string) (radix : Z) : float :=
  let '(negative, str) := stripSign (trimStart inputString) in
  if (radix =? 0) || (2 <=? radix) && (radix <=? 36) then
    let '(R, digits) :=
      match stripHexPrefix str with
      | Some rest =>
          if (radix =? 0) || (radix =? 16) then (16, rest)
          else (radix, str)
      | None => (if radix =? 0 then 10 else radix, str)
      end in
    match readDigits R digits None with
    | Some mathInt =>
        if negative then (- ofInteger mathInt)%float else ofInteger mathInt
    | None => nan
    end
  else nan.

End JS.

(** ** Completions: a method either returns or throws *)

Inductive Error := TypeError | ReferenceError.

Inductive Completion (A : Type) :=
| Normal (a : A)
| Throw (e : Error).
Arguments Normal {A} a.
Arguments Throw {A} e.

Definition bind {A B} (c : Completion A) (k : A -> Completion B)
  : Completion B :=
  match c with
  | Normal a => k a
  | Throw e => Throw e
  end.

Notation "x <- c ;; k" := (bind c (fun x => k))
  (at level 61, c at next level, right associativity).

(** ** The DOM: nodes, event targets, the two globals *)

Module DOM.

(** A node is known by its identity; [contains] walks the subtree. *)
#[local] Unset Elimination Schemes.
Inductive Node := Element (id : nat) (children : list Node).
#[local] Set Elimination Schemes.

(** [node.contains(other)]: [other] is [node] or one of its descendants. *)
Fixpoint contains (node : Node) (other : nat) : bool :=
  match node with
  | Element id children =>
      Nat.eqb id other || existsb (fun c => contains c other) children
  end.

(** The function objects that can be handed to [addEventListener]. The
    handlers of a [Sidebar] are arrow-function properties, created once
    per instance: one function object per instance and property. *)
Inductive Property :=
| handleClickOutside_
| checkMobileOnResize_
| toggleCollapse_
| hideScrollbar_.

Inductive Callback :=
| Bound (instance : nat) (property : Property)
| Foreign (fn : nat).

Definition Property_eqb (p q : Property) : bool :=
  match p, q with
  | handleClickOutside_, handleClickOutside_
  | checkMobileOnResize_, checkMobileOnResize_
  | toggleCollapse_, toggleCollapse_
  | hideScrollbar_, hideScrollbar_ => true
  | _, _ => false
  end.

Definition Callback_eqb (f g : Callback) : bool :=
  match f, g with
  | Bound i p, Bound j q => Nat.eqb i j && Property_eqb p q
  | Foreign m, Foreign n => Nat.eqb m n
  | _, _ => false
  end.

(** An entry of an event target's listener list: event type and callback
    (the [capture] flag is left at its default everywhere here). *)
Definition Listener : Type := string * Callback.

Definition Listener_eqb (a b : Listener) : bool :=
  String.eqb (fst a) (fst b) && Callback_eqb (snd a) (snd b).

(** [addEventListener]: appended, unless the same listener is there. *)
Definition add (l : Listener) (ls : list Listener) : list Listener :=
  if existsb (Listener_eqb l) ls then ls else ls ++ [l].

(** [removeEventListener]: the matching entry, if any, is taken out. *)
Fixpoint remove (l : Listener) (ls : list Listener) : list Listener :=
  match ls with
  | [] => []
  | x :: r => if Listener_eqb l x then r else x :: remove l r
  end.

Record Window := mkWindow {
  innerWidth : float;
  windowListeners : list Listener
}.

Record Document := mkDocument {
  documentListeners : list Listener
}.

(** The values of the global bindings [window] and [document]: an object,
    or a falsy value ([None]) outside a browser. The bindings themselves
    are taken to exist, as the DOM typings the source compiles against
    declare them. *)
Record Globals := mkGlobals {
  window : option Window;
  document : option Document
}.

(** A global identifier as a method finds it when it evaluates the bare
    name: not declared at all (no DOM in the runtime), or declared, with
    the value it holds. *)
Inductive Binding (A : Type) :=
| Undeclared
| Declared (value : A).
Arguments Undeclared {A}.
Arguments Declared {A} value.

(** Evaluating the identifier: an undeclared one throws. *)
Definition read {A : Type} (b : Binding A) : Completion A :=
  match b with
  | Undeclared => Throw ReferenceError
  | Declared value => Normal value
  end.

(** The callbacks on either target that belong to instance [i]. *)
Definition ownedBy (i : nat) (l : Listener) : bool :=
  match snd l with
  | Bound j _ => Nat.eqb i j
  | Foreign _ => false
  end.

End DOM.

(** ** The component *)

Module Sidebar.

Import DOM.
Local Open Scope float_scope.

(** Modelled from the spec: the enumeration [PageConfig.SidebarState] of
    [src/autogen/proto], which is not among the sources; the spec's
    InitialStateDirective is one of EXPANDED, COLLAPSED, AUTO. *)
Inductive SidebarState := AUTO | EXPANDED | COLLAPSED.

Definition SidebarState_eqb (a b : SidebarState) : bool :=
  match a, b with
  | AUTO, AUTO | EXPANDED, EXPANDED | COLLAPSED, COLLAPSED => true
  | _, _ => false
  end.

(** [a !== b] on the optional prop: [undefined] is [None]. *)
Definition strictNotEqual (a b : option SidebarState) : bool :=
  match a, b with
  | Some x, Some y => negb (SidebarState_eqb x y)
  | None, None => false
  | _, _ => true
  end.

Record Breakpoints := mkBreakpoints { md : string }.
Record Theme := mkTheme { breakpoints : Breakpoints }.

(** [SidebarProps], with the props the logic reads; the others
    ([chevronDownshift], [appPages], [hasElements], ...) only reach
    [render]. *)
Record SidebarProps := mkProps {
  initialSidebarState : option SidebarState;
  theme : Theme
}.

Record State := mkState {
  collapsedSidebar : bool;
  lastInnerWidth : float;
  hideScrollbar : bool
}.

(** The object given to [setState]: the fields it mentions. *)
Record Patch := mkPatch {
  collapsedSidebar' : option bool;
  lastInnerWidth' : option float;
  hideScrollbar' : option bool
}.

Definition merge (p : Patch) (s : State) : State :=
  {| collapsedSidebar :=
       match collapsedSidebar' p with Some b => b | None => collapsedSidebar s end;
     lastInnerWidth :=
       match lastInnerWidth' p with Some w => w | None => lastInnerWidth s end;
     hideScrollbar :=
       match hideScrollbar' p with Some b => b | None => hideScrollbar s end |}.

(** The result of [React.createRef()]: an object, [current] empty until
    React attaches the rendered root element. *)
Record RefObject := mkRef { current : option Node }.

(** An instance: [uid] stands for the identity of the object. *)
Record Sidebar := mkSidebar {
  uid : nat;
  props : SidebarProps;
  state : State;
  mediumBreakpointPx : float;
  sidebarRef : RefObject
}.

(** [this.setState(patch)]. Every method below reads what it needs of
    [this.state] before its first [setState], so merging at once and
    merging when React flushes the batch give the same state. *)
Definition setState (p : Patch) (this : Sidebar) : Sidebar :=
  {| uid := uid this;
     props := props this;
     state := merge p (state this);
     mediumBreakpointPx := mediumBreakpointPx this;
     sidebarRef := sidebarRef this |}.

(** The literal [0.02] as JavaScript reads it: the nearest binary64. *)
Definition margin : float := 0x1.47ae147ae147bp-6.

(** Lines 61-64. *)
Definition calculateMaxBreakpoint (value : string) : float :=
  JS.parseInt value 10 - margin.

(** Lines 95-111. [window] is the value that the global identifier holds
    where it is declared; [Runtime.shouldCollapse] below evaluates the
    identifier itself, and so do the other methods of [Runtime]. *)
Definition shouldCollapse (window : option Window) (props : SidebarProps)
    (mediumBreakpointPx : float) : bool :=
  match initialSidebarState props with
  | Some EXPANDED => false
  | Some COLLAPSED => true
  | Some AUTO | None =>
      (* const { innerWidth } = window || {} *)
      let innerWidth := option_map innerWidth window in
      match innerWidth with
      | Some innerWidth =>
          if JS.truthy innerWidth then innerWidth <=? mediumBreakpointPx
          else false
      | None => false
      end
  end.

(** Lines 68-78. *)
Definition constructor (uid : nat) (window : option Window)
    (props : SidebarProps) : Sidebar :=
  let mediumBreakpointPx :=
    calculateMaxBreakpoint (md (breakpoints (theme props))) in
  {| uid := uid;
     props := props;
     mediumBreakpointPx := mediumBreakpointPx;
     sidebarRef := {| current := None |};
     state :=
       {| collapsedSidebar := shouldCollapse window props mediumBreakpointPx;
          lastInnerWidth :=
            match window with
            | Some w => innerWidth w
            | None => infinity
            end;
          hideScrollbar := false |} |}.

(** Lines 80-93; [this] already carries the new props. *)
Definition componentDidUpdate (window : option Window)
    (prevProps : SidebarProps) (this : Sidebar) : Sidebar :=
  let this :=
    {| uid := uid this;
       props := props this;
       state := state this;
       mediumBreakpointPx :=
         calculateMaxBreakpoint (md (breakpoints (theme (props this))));
       sidebarRef := sidebarRef this |} in
  if strictNotEqual (initialSidebarState (props this))
       (initialSidebarState prevProps)
  then
    setState
      {| collapsedSidebar' :=
           Some (shouldCollapse window (props this) (mediumBreakpointPx this));
         lastInnerWidth' := None;
         hideScrollbar' := None |} this
  else this.

Definition onWindow (g : Globals) (f : Window -> Window)
  : Completion Globals :=
  match window g with
  | Some w => Normal {| window := Some (f w); document := document g |}
  | None => Throw TypeError
  end.

Definition onDocument (g : Globals) (f : Document -> Document)
  : Completion Globals :=
  match document g with
  | Some d => Normal {| window := window g; document := Some (f d) |}
  | None => Throw TypeError
  end.

Definition resizeListener (this : Sidebar) : Listener :=
  ("resize"%string, Bound (uid this) checkMobileOnResize_).

Definition mousedownListener (this : Sidebar) : Listener :=
  ("mousedown"%string, Bound (uid this) handleClickOutside_).

(** Lines 113-116. *)
Definition componentDidMount (this : Sidebar) (g : Globals)
  : Completion Globals :=
  g <- onWindow g (fun w =>
         {| innerWidth := innerWidth w;
            windowListeners := add (resizeListener this) (windowListeners w) |}) ;;
  onDocument g (fun d =>
    {| documentListeners :=
         add (mousedownListener this) (documentListeners d) |}).

(** Lines 118-121. *)
Definition componentWillUnmount (this : Sidebar) (g : Globals)
  : Completion Globals :=
  g <- onWindow g (fun w =>
         {| innerWidth := innerWidth w;
            windowListeners :=
              remove (resizeListener this) (windowListeners w) |}) ;;
  onDocument g (fun d =>
    {| documentListeners :=
         remove (mousedownListener this) (documentListeners d) |}).

(** Lines 123-136; [target] is [event.target]. The ref object itself is
    an object, hence truthy. *)
Definition handleClickOutside (window : option Window) (target : nat)
    (this : Sidebar) : Sidebar :=
  match window with
  | Some w =>
      let current := current (sidebarRef this) in
      let innerWidth := innerWidth w in
      match current with
      | Some current =>
          if negb (contains current target)
             && (innerWidth <=? mediumBreakpointPx this)
          then
            setState
              {| collapsedSidebar' := Some true;
                 lastInnerWidth' := None;
                 hideScrollbar' := None |} this
          else this
      | None => this
      end
  | None => this
  end.

(** Lines 138-153. *)
Definition checkMobileOnResize (window : option Window) (this : Sidebar)
  : bool * Sidebar :=
  match window with
  | None => (false, this)
  | Some w =>
      let innerWidth := innerWidth w in
      let lastInnerWidth := lastInnerWidth (state this) in
      let this :=
        if (innerWidth <? lastInnerWidth)
           && (innerWidth <=? mediumBreakpointPx this)
        then
          setState
            {| collapsedSidebar' := Some true;
               lastInnerWidth' := None;
               hideScrollbar' := None |} this
        else this in
      let this :=
        setState
          {| collapsedSidebar' := None;
             lastInnerWidth' := Some innerWidth;
             hideScrollbar' := None |} this in
      (true, this)
  end.

(** Lines 155-159. *)
Definition toggleCollapse (this : Sidebar) : Sidebar :=
  let collapsedSidebar := collapsedSidebar (state this) in
  setState
    {| collapsedSidebar' := Some (negb collapsedSidebar);
       lastInnerWidth' := None;
       hideScrollbar' := None |} this.

(** Lines 161-163, the arrow property [hideScrollbar]. *)
Definition setHideScrollbar (newValue : bool) (this : Sidebar) : Sidebar :=
  setState
    {| collapsedSidebar' := None;
       lastInnerWidth' := None;
       hideScrollbar' := Some newValue |} this.

End Sidebar.

(** ** The methods as they evaluate the identifier [window] *)

Module Runtime.

Import DOM Sidebar.
Local Open Scope float_scope.

(** Lines 95-111: [window] is evaluated at line 107, in the AUTO and
    default cases only. *)
Definition shouldCollapse (global : Binding (option Window))
    (props : SidebarProps) (mediumBreakpointPx : float) : Completion bool :=
  match initialSidebarState props with
  | Some EXPANDED => Normal false
  | Some COLLAPSED => Normal true
  | Some AUTO | None =>
      (* const { innerWidth } = window || {} *)
      window <- read global ;;
      let innerWidth := option_map innerWidth window in
      Normal
        match innerWidth with
        | Some innerWidth =>
            if JS.truthy innerWidth then innerWidth <=? mediumBreakpointPx
            else false
        | None => false
        end
  end.

(** Lines 68-78: the state literal evaluates [shouldCollapse] (line 74),
    then [window] (line 75). *)
Definition constructor (uid : nat) (global : Binding (option Window))
    (props : SidebarProps) : Completion Sidebar :=
  let mediumBreakpointPx :=
    calculateMaxBreakpoint (md (breakpoints (theme props))) in
  collapsedSidebar <- shouldCollapse global props mediumBreakpointPx ;;
  window <- read global ;;
  Normal
    {| uid := uid;
       props := props;
       mediumBreakpointPx := mediumBreakpointPx;
       sidebarRef := {| current := None |};
       state :=
         {| collapsedSidebar := collapsedSidebar;
            lastInnerWidth :=
              match window with
              | Some w => innerWidth w
              | None => infinity
              end;
            hideScrollbar := false |} |}.

(** Lines 80-93: [shouldCollapse] runs only when the directive changed. *)
Definition componentDidUpdate (global : Binding (option Window))
    (prevProps : SidebarProps) (this : Sidebar) : Completion Sidebar :=
  let this :=
    {| uid := uid this;
       props := props this;
       state := state this;
       mediumBreakpointPx :=
         calculateMaxBreakpoint (md (breakpoints (theme (props this))));
       sidebarRef := sidebarRef this |} in
  if strictNotEqual (initialSidebarState (props this))
       (initialSidebarState prevProps)
  then
    collapsedSidebar <-
      shouldCollapse global (props this) (mediumBreakpointPx this) ;;
    Normal
      (setState
         {| collapsedSidebar' := Some collapsedSidebar;
            lastInnerWidth' := None;
            hideScrollbar' := None |} this)
  else Normal this.

(** Lines 123-136: the ref object is truthy, so [&&] goes on to evaluate
    [window] at line 124; what follows is the method on the value found. *)
Definition handleClickOutside (global : Binding (option Window))
    (target : nat) (this : Sidebar) : Completion Sidebar :=
  window <- read global ;;
  Normal (Sidebar.handleClickOutside window target this).

(** Lines 138-153: [window] is evaluated first thing, at line 139; what
    follows is the method on the value found. *)
Definition checkMobileOnResize (global : Binding (option Window))
    (this : Sidebar) : Completion (bool * Sidebar) :=
  window <- read global ;;
  Normal (Sidebar.checkMobileOnResize window this).

End Runtime.

(** ** The specification's reading of the breakpoint string *)

Module Spec.

Local Open Scope Z_scope.

Definition isDecimalDigit (c : ascii) : bool :=
  let n := Z.of_N (N_of_ascii c) in (48 <=? n) && (n <=? 57).

Fixpoint allDigits (s : string) : bool :=
  match s with
  | String c r => isDecimalDigit c && allDigits r
  | EmptyString => true
  end.

Definition startsWithDigit (s : string) : bool :=
  match s with
  | String c _ => isDecimalDigit c
  | EmptyString => false
  end.

(** The integer a numeral denotes, by position: the last digit counts
    units, the one before it tens, and so on. *)
Fixpoint decimalValue (s : string) : Z :=
  match s with
  | String c r =>
      (Z.of_N (N_of_ascii c) - 48) * 10 ^ Z.of_nat (String.length r)
      + decimalValue r
  | EmptyString => 0
  end.

End Spec.

(** ** Concrete inputs used by the examples *)

Module Examples.

Import DOM Sidebar.

(** The directive is AUTO, or the prop is not set. *)
Definition isAuto (props : SidebarProps) : Prop :=
  initialSidebarState props = Some AUTO \/ initialSidebarState props = None.

(** The binary64 nearest to 99.98, which is how JavaScript reads the
    literal [99.98]. *)
Definition ninetyNine98 : float := 0x1.8feb851eb851fp+6.

Definition themeOf (md : string) : Theme :=
  {| breakpoints := {| md := md |} |}.

Definition propsOf (directive : option SidebarState) (md : string)
  : SidebarProps :=
  {| initialSidebarState := directive; theme := themeOf md |}.

Definition windowOf (width : float) : Window :=
  {| innerWidth := width; windowListeners := [] |}.

(** A sidebar root (node 1) with two descendants, as mounted. *)
Definition root : Node := Element 1 [Element 2 [Element 3 []]].

Definition mounted (this : Sidebar) : Sidebar :=
  {| uid := uid this;
     props := props this;
     state := state this;
     mediumBreakpointPx := mediumBreakpointPx this;
     sidebarRef := {| current := Some root |} |}.

Definition browser (width : float) : Globals :=
  {| window :=
       Some {| innerWidth := width;
               windowListeners := [("resize"%string, Foreign 7)] |};
     document := Some {| documentListeners := [] |} |}.

End Examples.

(** ** The order of binary64 values, by rank *)

Module Rank.

Local Open Scope Z_scope.

(** A key whose lexicographic order is the order of the floats: the sign
    class first, then exponent and mantissa, both negated below zero.
    [NaN] has no rank. *)
Definition rank (f : spec_float) : option (Z * Z * Z) :=
  match f with
  | S754_zero _ => Some (0, 0, 0)
  | S754_infinity s => Some (if s then -2 else 2, 0, 0)
  | S754_nan => None
  | S754_finite s m e =>
      Some (if s then (-1, - e, Z.neg m) else (1, e, Z.pos m))
  end.

Definition lex3 (a b : Z * Z * Z) : comparison :=
  let '(a1, a2, a3) := a in
  let '(b1, b2, b3) := b in
  match a1 ?= b1 with
  | Eq => match a2 ?= b2 with Eq => a3 ?= b3 | c => c end
  | c => c
  end.

(** What [lex3] says, as an order on triples. *)
Definition lexLt (a b : Z * Z * Z) : Prop :=
  let '(a1, a2, a3) := a in
  let '(b1, b2, b3) := b in
  a1 < b1 \/ (a1 = b1 /\ (a2 < b2 \/ (a2 = b2 /\ a3 < b3))).

(** [check] holds at [k], [k + 1], ..., [k + fuel - 1]. *)
Fixpoint allFrom (check : Z -> bool) (fuel : nat) (k : Z) : bool :=
  match fuel with
  | O => true
  | S fuel => check k && allFrom check fuel (k + 1)
  end.

(** The widths and breakpoints covered by the exhaustive checks below:
    the integers from 1 to [bound]. *)
Definition bound : Z := 65536.

(** Consecutive integers are distinct, increasing Numbers, and none of
    them is falsy. *)
Definition stepsUp (k : Z) : bool :=
  let x := JS.ofInteger k in
  let y := JS.ofInteger (k + 1) in
  PrimFloat.ltb x y && JS.truthy y.

(** The threshold for breakpoint [k + 1] lies between [k] and [k + 1]. *)
Definition thresholdBetween (k : Z) : bool :=
  let below := JS.ofInteger k in
  let n := JS.ofInteger (k + 1) in
  let threshold := PrimFloat.sub n Sidebar.margin in
  PrimFloat.leb below threshold && PrimFloat.ltb threshold n.

End Rank.

(** ** A page with one sidebar: which method runs on which event *)

Module Session.

Import DOM Sidebar.

(** The breakpoint string has no numeral where [parseInt] looks for one:
    after leading white space and an optional sign there is no digit. *)
Definition hasNoNumeral (value : string) : bool :=
  negb (Spec.startsWithDigit (snd (JS.stripSign (JS.trimStart value)))).

(** What can happen to a mounted sidebar. [componentDidMount] registers
    [checkMobileOnResize] for [resize] and [handleClickOutside] for
    [mousedown]; [render] hands [toggleCollapse] to both buttons and to the
    navigation, and [hideScrollbar] to the navigation; React calls
    [componentDidUpdate] after new props have been set. *)
Inductive Event :=
| Resize (width : float)
| MouseDown (target : nat)
| ToggleClick
| NavHover (newValue : bool)
| NewProps (newProps : SidebarProps).

Record Page := mkPage {
  view : Window;
  component : Sidebar
}.

Definition withProps (newProps : SidebarProps) (this : Sidebar) : Sidebar :=
  {| uid := uid this;
     props := newProps;
     state := state this;
     mediumBreakpointPx := mediumBreakpointPx this;
     sidebarRef := sidebarRef this |}.

Definition dispatch (p : Page) (e : Event) : Page :=
  match e with
  | Resize width =>
      let view :=
        {| innerWidth := width; windowListeners := windowListeners (view p) |} in
      {| view := view;
         component := snd (checkMobileOnResize (Some view) (component p)) |}
  | MouseDown target =>
      {| view := view p;
         component := handleClickOutside (Some (view p)) target (component p) |}
  | ToggleClick =>
      {| view := view p; component := toggleCollapse (component p) |}
  | NavHover newValue =>
      {| view := view p; component := setHideScrollbar newValue (component p) |}
  | NewProps newProps =>
      {| view := view p;
         component :=
           componentDidUpdate (Some (view p)) (props (component p))
             (withProps newProps (component p)) |}
  end.

Definition run (events : list Event) (p : Page) : Page :=
  fold_left dispatch events p.

(** React attaches the rendered root element to the ref. *)
Definition attach (root : Node) (this : Sidebar) : Sidebar :=
  {| uid := uid this;
     props := props this;
     state := state this;
     mediumBreakpointPx := mediumBreakpointPx this;
     sidebarRef := {| current := Some root |} |}.

(** A page as it is once the sidebar has been constructed in window [w]
    and rendered as [root]. *)
Definition opened (uid : nat) (w : Window) (props : SidebarProps)
    (root : Node) : Page :=
  {| view := w; component := attach root (constructor uid (Some w) props) |}.

(** The recorded width and the threshold are current, and the page still
    shows instance [uid0] rendered as [root]. *)
Definition Tracks (uid0 : nat) (root : Node) (p : Page) : Prop :=
  lastInnerWidth (state (component p)) = innerWidth (view p) /\
  mediumBreakpointPx (component p)
  = calculateMaxBreakpoint (md (breakpoints (theme (props (component p))))) /\
  uid (component p) = uid0 /\
  current (sidebarRef (component p)) = Some root.

(** The events keep the window wider than [threshold] and bring no new
    props. *)
Definition staysWide (threshold : float) (e : Event) : bool :=
  match e with
  | Resize width => negb (PrimFloat.leb width threshold)
  | NewProps _ => false
  | _ => true
  end.

Definition isToggle (e : Event) : bool :=
  match e with
  | ToggleClick => true
  | _ => false
  end.

End Session.

(** ** Facts about binary64 comparison *)

Module FloatOrder.

Local Open Scope float_scope.

Lemma SFcompare_antisym (a b : spec_float) :
  SFcompare b a = option_map CompOpp (SFcompare a b).
Proof.
  destruct a as [sa|sa| |sa ma ea], b as [sb|sb| |sb mb eb]; cbn;
    try reflexivity;
    try (destruct sa; reflexivity);
    try (destruct sb; reflexivity);
    try (destruct sa, sb; reflexivity).
  f_equal.
  rewrite (Z.compare_antisym ea eb).
  change (PosDef.Pos.compare_cont Eq mb ma) with (Pos.compare mb ma).
  change (PosDef.Pos.compare_cont Eq ma mb) with (Pos.compare ma mb).
  rewrite (Pos.compare_antisym ma mb).
  destruct sa, sb, (ea ?= eb)%Z; reflexivity.
Qed.

Lemma ltb_leb (x y : float) : (x <? y) = true -> (x <=? y) = true.
Proof.
  rewrite ltb_spec, leb_spec. unfold SFltb, SFleb.
  destruct (SFcompare (Prim2SF x) (Prim2SF y)) as [[]|]; congruence.
Qed.

Lemma leb_not_gtb (x y : float) : (x <=? y) = true -> (y <? x) = false.
Proof.
  rewrite ltb_spec, leb_spec. unfold SFltb, SFleb.
  rewrite (SFcompare_antisym (Prim2SF x) (Prim2SF y)).
  destruct (SFcompare (Prim2SF x) (Prim2SF y)) as [[]|]; cbn; congruence.
Qed.

Lemma ltb_asym (x y : float) : (x <? y) = true -> (y <? x) = false.
Proof. intro H. apply leb_not_gtb, ltb_leb, H. Qed.

End FloatOrder.

(** ** [parseInt] on a numeral followed by a unit *)

Module ParseInt.

Import JS Spec.
Local Open Scope Z_scope.

Lemma digit_cases (c : ascii) :
  isDecimalDigit c = true ->
  isWhiteSpace c = false /\ c <> "-"%char /\ c <> "+"%char /\
  radixDigit 10 c = Some (Z.of_N (N_of_ascii c) - 48).
Proof.
  unfold isDecimalDigit, isWhiteSpace, radixDigit, digitValue.
  intro H. apply andb_prop in H as [Hlo Hhi].
  apply Z.leb_le in Hlo, Hhi.
  repeat split.
  - repeat apply orb_false_intro.
    + apply andb_false_intro2, N.leb_gt. lia.
    + apply N.eqb_neq. lia.
    + apply N.eqb_neq. lia.
  - intros ->. cbn in Hlo. lia.
  - intros ->. cbn in Hlo. lia.
  - replace (48 <=? Z.of_N (N_of_ascii c)) with true
      by (symmetry; apply Z.leb_le; lia).
    replace (Z.of_N (N_of_ascii c) <=? 57) with true
      by (symmetry; apply Z.leb_le; lia).
    cbn [andb].
    replace (Z.of_N (N_of_ascii c) - 48 <? 10) with true
      by (symmetry; apply Z.ltb_lt; lia).
    reflexivity.
Qed.

Lemma nondigit_stops (rest : string) (acc : option Z) :
  startsWithDigit rest = false -> readDigits 10 rest acc = acc.
Proof.
  destruct rest as [|c r]; [reflexivity|]. cbn.
  unfold isDecimalDigit, radixDigit, digitValue. intro H.
  set (n := Z.of_N (N_of_ascii c)) in *.
  destruct ((48 <=? n) && (n <=? 57)) eqn:E1; [discriminate|].
  destruct ((97 <=? n) && (n <=? 122)) eqn:E2.
  - apply andb_prop in E2 as [E2 _]. apply Z.leb_le in E2.
    replace (n - 87 <? 10) with false by (symmetry; apply Z.ltb_ge; lia).
    reflexivity.
  - destruct ((65 <=? n) && (n <=? 90)) eqn:E3; [|reflexivity].
    apply andb_prop in E3 as [E3 _]. apply Z.leb_le in E3.
    replace (n - 55 <? 10) with false by (symmetry; apply Z.ltb_ge; lia).
    reflexivity.
Qed.

Lemma readDigits_numeral (digits rest : string) (a : Z) :
  allDigits digits = true -> startsWithDigit rest = false ->
  readDigits 10 (digits ++ rest) (Some a)
  = Some (a * 10 ^ Z.of_nat (String.length digits) + decimalValue digits).
Proof.
  intros Hd Hr. revert a.
  induction digits as [|c r IH]; intro a.
  - cbn [append String.length decimalValue].
    rewrite (nondigit_stops rest _ Hr). f_equal. cbn. lia.
  - cbn [allDigits] in Hd. apply andb_prop in Hd as [Hc Hrest].
    destruct (digit_cases c Hc) as (_ & _ & _ & Hdig).
    cbn [append readDigits]. rewrite Hdig, (IH Hrest).
    f_equal. cbn [String.length decimalValue].
    rewrite Nat2Z.inj_succ, Z.pow_succ_r by lia. ring.
Qed.

(** A numeral followed by something that is not a digit parses, in radix
    ten, to the number the numeral denotes. *)
Lemma parseInt_numeral (digits rest : string) :
  digits <> EmptyString ->
  allDigits digits = true -> startsWithDigit rest = false ->
  parseInt (digits ++ rest) 10 = ofInteger (decimalValue digits).
Proof.
  intros Hne Hd Hr.
  destruct digits as [|c r]; [congruence|].
  cbn [allDigits] in Hd. apply andb_prop in Hd as [Hc Hrest].
  destruct (digit_cases c Hc) as (Hws & Hminus & Hplus & Hdig).
  unfold parseInt. cbn [append trimStart]. rewrite Hws.
  assert (Hsign : stripSign (String c (r ++ rest))
                  = (false, String c (r ++ rest))).
  { unfold stripSign.
    destruct c as [[] [] [] [] [] [] [] []]; try reflexivity; congruence. }
  rewrite Hsign.
  change ((10 =? 0) || (2 <=? 10) && (10 <=? 36)) with true.
  change ((10 =? 0) || (10 =? 16)) with false.
  change (if 10 =? 0 then 10 else 10) with 10.
  assert (Hread : readDigits 10 (String c (r ++ rest)) None
                  = Some (decimalValue (String c r))).
  { cbn [readDigits]. rewrite Hdig.
    rewrite (readDigits_numeral r rest _ Hrest Hr). reflexivity. }
  destruct (stripHexPrefix (String c (r ++ rest)));
    cbv beta iota zeta; rewrite Hread; reflexivity.
Qed.

End ParseInt.

(** ** The initialization rule and the derived threshold *)

Module Initialization.

Import DOM Sidebar Examples.
Local Open Scope float_scope.

(** [margin] is the binary64 [5764607523034235 * 2^-58], and no binary64
    is nearer to 1/50: the error is at most half a unit in the last
    place, [|50 m - 2^58| <= 25]. *)
Lemma margin_is_nearest :
  Prim2SF margin = S754_finite false 5764607523034235 (-58) /\
  (Z.abs (50 * 5764607523034235 - 2 ^ 58) <= 25)%Z.
Proof. split; [reflexivity | vm_compute; discriminate]. Qed.

Lemma constructor_collapsed uid window props :
  collapsedSidebar (state (constructor uid window props))
  = shouldCollapse window props
      (calculateMaxBreakpoint (md (breakpoints (theme props)))).
Proof. reflexivity. Qed.

Lemma shouldCollapse_auto w props bp :
  isAuto props ->
  shouldCollapse (Some w) props bp
  = if JS.truthy (innerWidth w) then innerWidth w <=? bp else false.
Proof.
  unfold shouldCollapse. intros [-> | ->]; reflexivity.
Qed.

(** C1, as the code has it: under the AUTO or unset directive, with a
    viewport width that is available (a truthy number), the initial
    collapsed state is true exactly when the width is at most the DERIVED
    threshold, the theme breakpoint's integer minus 0.02. For the theme
    breakpoint "100px" the threshold is 99.98, so width 50 gives
    collapsed = true, width 150 gives false, and width exactly 100 gives
    false: the theme's own integer is outside the collapsing range. *)
Theorem C1_auto_collapses_up_to_derived_threshold
    (uid : nat) (w : Window) (props : SidebarProps) :
  isAuto props ->
  JS.truthy (innerWidth w) = true ->
  let threshold := calculateMaxBreakpoint (md (breakpoints (theme props))) in
  let collapsed := collapsedSidebar (state (constructor uid (Some w) props)) in
  (forall bp, shouldCollapse (Some w) props bp = (innerWidth w <=? bp)) /\
  collapsed = (innerWidth w <=? threshold) /\
  (md (breakpoints (theme props)) = "100px"%string ->
     threshold = ninetyNine98 /\
     (innerWidth w = 50 -> collapsed = true) /\
     (innerWidth w = 150 -> collapsed = false) /\
     (innerWidth w = 100 -> collapsed = false)).
Proof.
  intros Hauto Htruthy threshold collapsed.
  assert (Hrule : forall bp,
             shouldCollapse (Some w) props bp = (innerWidth w <=? bp)).
  { intro bp. rewrite (shouldCollapse_auto w props bp Hauto), Htruthy.
    reflexivity. }
  split; [exact Hrule|]. split.
  - unfold collapsed. rewrite constructor_collapsed. apply Hrule.
  - intro Hmd. unfold collapsed, threshold.
    rewrite constructor_collapsed, Hrule, Hmd.
    split; [reflexivity|].
    repeat split; intros ->; reflexivity.
Qed.

Lemma C1_auto_collapses_up_to_derived_threshold_witness :
  collapsedSidebar
    (state (constructor 0 (Some (windowOf 100)) (propsOf (Some AUTO) "100px")))
  = false.
Proof.
  destruct (C1_auto_collapses_up_to_derived_threshold
              0 (windowOf 100) (propsOf (Some AUTO) "100px")
              (or_introl eq_refl) eq_refl) as (_ & _ & H).
  destruct (H eq_refl) as (_ & _ & _ & H100).
  exact (H100 eq_refl).
Defined.

(** C1 as stated fails: with the theme breakpoint "100px" and a viewport
    exactly 100 wide, the AUTO rule does not collapse. *)
Lemma C1_width_100_breakpoint_100px_is_expanded :
  shouldCollapse (Some (windowOf 100)) (propsOf (Some AUTO) "100px")
    (calculateMaxBreakpoint "100px") = false /\
  collapsedSidebar
    (state (constructor 0 (Some (windowOf 100)) (propsOf None "100px")))
  <> true.
Proof. split; [reflexivity | discriminate]. Qed.

(** C6: for the directives EXPANDED and COLLAPSED the rule ignores the
    window and the threshold altogether: the result, and with it the initial
    collapsed state, is [d == COLLAPSED]. *)
Theorem C6_explicit_directive_decides
    (uid : nat) (window : option Window) (props : SidebarProps)
    (bp : float) (d : SidebarState) :
  initialSidebarState props = Some d ->
  d <> AUTO ->
  shouldCollapse window props bp = SidebarState_eqb d COLLAPSED /\
  collapsedSidebar (state (constructor uid window props))
  = SidebarState_eqb d COLLAPSED.
Proof.
  intros Hd Hna. rewrite constructor_collapsed. unfold shouldCollapse.
  rewrite Hd. destruct d; [congruence | split; reflexivity ..].
Qed.

Lemma C6_explicit_directive_decides_witness :
  shouldCollapse (Some (windowOf 50)) (propsOf (Some EXPANDED) "100px")
    ninetyNine98 = false /\
  shouldCollapse (Some (windowOf 150)) (propsOf (Some COLLAPSED) "100px")
    ninetyNine98 = true.
Proof.
  split.
  - apply (C6_explicit_directive_decides
             0 (Some (windowOf 50)) (propsOf (Some EXPANDED) "100px")
             ninetyNine98 EXPANDED eq_refl).
    discriminate.
  - apply (C6_explicit_directive_decides
             0 (Some (windowOf 150)) (propsOf (Some COLLAPSED) "100px")
             ninetyNine98 COLLAPSED eq_refl).
    discriminate.
Defined.

(** C7: the threshold depends on the breakpoint string only, and for a
    string that is a decimal numeral followed by something that is not a
    digit it is the number the numeral denotes, less 0.02 (in binary64
    arithmetic); so [calculateMaxBreakpoint "100px"] is 99.98. *)
Theorem C7_threshold_is_leading_integer_minus_margin
    (digits rest : string) :
  digits <> EmptyString ->
  Spec.allDigits digits = true ->
  Spec.startsWithDigit rest = false ->
  calculateMaxBreakpoint (digits ++ rest)
  = JS.ofInteger (Spec.decimalValue digits) - margin /\
  calculateMaxBreakpoint "100px" = ninetyNine98.
Proof.
  intros Hne Hd Hr. split; [|reflexivity].
  unfold calculateMaxBreakpoint.
  rewrite (ParseInt.parseInt_numeral digits rest Hne Hd Hr). reflexivity.
Qed.

Lemma C7_threshold_is_leading_integer_minus_margin_witness :
  calculateMaxBreakpoint "768px" = JS.ofInteger 768 - margin.
Proof.
  refine (proj1 (C7_threshold_is_leading_integer_minus_margin
                   "768" "px" _ eq_refl eq_refl)).
  discriminate.
Defined.

(** C10: under the AUTO or unset directive a window whose [innerWidth] is
    0 never collapses, although 0 is at most every positive threshold. *)
Theorem C10_zero_width_counts_as_unavailable
    (w : Window) (props : SidebarProps) (bp : float) :
  isAuto props ->
  innerWidth w = 0 ->
  (0 <? bp) = true ->
  shouldCollapse (Some w) props bp = false /\ (innerWidth w <=? bp) = true.
Proof.
  intros Hauto Hw Hpos. split.
  - rewrite (shouldCollapse_auto w props bp Hauto), Hw. reflexivity.
  - rewrite Hw. apply FloatOrder.ltb_leb, Hpos.
Qed.

Lemma C10_zero_width_counts_as_unavailable_witness :
  shouldCollapse (Some (windowOf 0)) (propsOf None "100px")
    (calculateMaxBreakpoint "100px") = false /\
  (innerWidth (windowOf 0) <=? calculateMaxBreakpoint "100px") = true.
Proof.
  apply (C10_zero_width_counts_as_unavailable
           (windowOf 0) (propsOf None "100px")
           (calculateMaxBreakpoint "100px")
           (or_intror eq_refl) eq_refl eq_refl).
Defined.

End Initialization.

(** ** A runtime without [window] *)

Module WithoutWindow.

Import DOM Sidebar Examples.
Local Open Scope float_scope.

(** Where the identifier is declared, evaluating it changes nothing: the
    methods of [Runtime] return what the methods of [Sidebar] compute from
    the value. *)
Lemma shouldCollapse_declared window props bp :
  Runtime.shouldCollapse (Declared window) props bp
  = Normal (shouldCollapse window props bp).
Proof.
  unfold Runtime.shouldCollapse, shouldCollapse.
  destruct (initialSidebarState props) as [[]|]; reflexivity.
Qed.

Lemma constructor_declared uid window props :
  Runtime.constructor uid (Declared window) props
  = Normal (constructor uid window props).
Proof.
  unfold Runtime.constructor. rewrite shouldCollapse_declared. reflexivity.
Qed.

Lemma componentDidUpdate_declared window prevProps this :
  Runtime.componentDidUpdate (Declared window) prevProps this
  = Normal (componentDidUpdate window prevProps this).
Proof.
  unfold Runtime.componentDidUpdate, componentDidUpdate.
  destruct (strictNotEqual _ _); [|reflexivity].
  rewrite shouldCollapse_declared. reflexivity.
Qed.

Lemma handlers_declared window target this :
  Runtime.handleClickOutside (Declared window) target this
  = Normal (handleClickOutside window target this) /\
  Runtime.checkMobileOnResize (Declared window) this
  = Normal (checkMobileOnResize window this).
Proof. split; reflexivity. Qed.

(** The constructor evaluates [window] whatever the directive is. *)
Lemma constructor_undeclared uid props :
  Runtime.constructor uid Undeclared props = Throw ReferenceError.
Proof.
  unfold Runtime.constructor, Runtime.shouldCollapse.
  destruct (initialSidebarState props) as [[]|]; reflexivity.
Qed.

(** C8, at the input where the code departs from it. The claim: with the
    global [window] unavailable, construction raises no failure, records
    the width [Infinity] and, under AUTO, starts expanded, and the resize
    handler returns without changing the state. The code: in a runtime
    where the identifier [window] is not declared, the guards that read
    it throw, so the constructor throws a [ReferenceError] for every props,
    the AUTO rule throws, and the resize handler throws. The defaults of
    the claim are what the code computes only where the identifier is
    declared and holds a falsy value. *)
Theorem C8_undeclared_window_throws
    (uid : nat) (props : SidebarProps) (bp : float) (this : Sidebar) :
  Runtime.constructor uid Undeclared props = Throw ReferenceError /\
  Runtime.shouldCollapse Undeclared
    {| initialSidebarState := Some AUTO; theme := theme props |} bp
  = Throw ReferenceError /\
  Runtime.shouldCollapse Undeclared
    {| initialSidebarState := None; theme := theme props |} bp
  = Throw ReferenceError /\
  Runtime.checkMobileOnResize Undeclared this = Throw ReferenceError /\
  (exists this0,
      Runtime.constructor uid (Declared None) props = Normal this0 /\
      lastInnerWidth (state this0) = infinity /\
      collapsedSidebar (state this0)
      = match initialSidebarState props with
        | Some COLLAPSED => true
        | _ => false
        end) /\
  Runtime.checkMobileOnResize (Declared None) this = Normal (false, this).
Proof.
  split; [apply constructor_undeclared|].
  split; [reflexivity|]. split; [reflexivity|]. split; [reflexivity|].
  split; [|reflexivity].
  exists (constructor uid None props).
  split; [apply constructor_declared|]. split; [reflexivity|].
  rewrite Initialization.constructor_collapsed. unfold shouldCollapse.
  destruct (initialSidebarState props) as [[]|]; reflexivity.
Qed.

End WithoutWindow.

(** ** The event handlers and the update hook *)

Module Handlers.

Import DOM Sidebar Examples.
Local Open Scope float_scope.

Lemma strictNotEqual_true (a b : option SidebarState) :
  a <> b -> strictNotEqual a b = true.
Proof.
  destruct a as [[]|], b as [[]|]; cbn; intro H;
    try reflexivity; congruence.
Qed.

Lemma strictNotEqual_false (a : option SidebarState) :
  strictNotEqual a a = false.
Proof. destruct a as [[]|]; reflexivity. Qed.

(** An update that keeps the directive keeps the state. *)
Lemma componentDidUpdate_same_directive
    (window : option Window) (prevProps : SidebarProps) (this : Sidebar) :
  initialSidebarState (props this) = initialSidebarState prevProps ->
  state (componentDidUpdate window prevProps this) = state this.
Proof.
  intro Hsame. unfold componentDidUpdate. cbn [props].
  rewrite Hsame, strictNotEqual_false. reflexivity.
Qed.

(** C2: on a resize (the window exists) the handler answers [true];
    collapsed becomes true exactly when the new width is below the
    recorded one and at most the threshold, and is left as it was
    otherwise; the recorded width becomes the new width in every case; so
    a resize that does not narrow the window leaves collapsed alone, and no
    resize turns collapsed from true to false. *)
Theorem C2_resize_collapses_only_when_narrowed_to_mobile
    (w : Window) (this : Sidebar) :
  let narrowed :=
    (innerWidth w <? lastInnerWidth (state this))
    && (innerWidth w <=? mediumBreakpointPx this) in
  let this' := snd (checkMobileOnResize (Some w) this) in
  fst (checkMobileOnResize (Some w) this) = true /\
  collapsedSidebar (state this')
  = (if narrowed then true else collapsedSidebar (state this)) /\
  lastInnerWidth (state this') = innerWidth w /\
  hideScrollbar (state this') = hideScrollbar (state this) /\
  ((lastInnerWidth (state this) <=? innerWidth w) = true ->
   collapsedSidebar (state this') = collapsedSidebar (state this)) /\
  (collapsedSidebar (state this) = true ->
   collapsedSidebar (state this') = true).
Proof.
  intros narrowed this'.
  assert (Hc : collapsedSidebar (state this')
               = (if narrowed then true else collapsedSidebar (state this))).
  { unfold this', narrowed, checkMobileOnResize. cbn [snd].
    destruct ((innerWidth w <? lastInnerWidth (state this))
              && (innerWidth w <=? mediumBreakpointPx this)); reflexivity. }
  split; [reflexivity|]. split; [exact Hc|].
  split; [reflexivity|]. split.
  - unfold this', checkMobileOnResize. cbn [snd].
    destruct ((innerWidth w <? lastInnerWidth (state this))
              && (innerWidth w <=? mediumBreakpointPx this)); reflexivity.
  - split.
    + intro Hwide. rewrite Hc. unfold narrowed.
      rewrite (FloatOrder.leb_not_gtb _ _ Hwide). reflexivity.
    + intro Htrue. rewrite Hc, Htrue. destruct narrowed; reflexivity.
Qed.

(** The two resizes of the specification's example, breakpoint "100px":
    from 200 down to 80 collapses, from 80 up to 200 does not expand. *)
Lemma C2_resize_collapses_only_when_narrowed_to_mobile_witness :
  let at200 := constructor 0 (Some (windowOf 200)) (propsOf None "100px") in
  let at80 := snd (checkMobileOnResize (Some (windowOf 80)) at200) in
  let back := snd (checkMobileOnResize (Some (windowOf 200)) at80) in
  collapsedSidebar (state at200) = false /\
  collapsedSidebar (state at80) = true /\
  collapsedSidebar (state back) = true /\
  lastInnerWidth (state back) = 200.
Proof.
  intros at200 at80 back.
  destruct (C2_resize_collapses_only_when_narrowed_to_mobile
              (windowOf 80) at200) as (_ & H80 & _).
  destruct (C2_resize_collapses_only_when_narrowed_to_mobile
              (windowOf 200) at80) as (_ & _ & Hw & _ & Hwide & _).
  split; [reflexivity|]. split; [exact H80|]. split.
  - unfold back. rewrite (Hwide eq_refl). exact H80.
  - exact Hw.
Defined.

(** C3: with the root element attached to the ref, a pointer-down whose
    target is outside the root while the width is at most the threshold
    sets collapsed to true and nothing else; above the threshold, or with
    the target inside the root, the instance is left as it was. *)
Theorem C3_outside_click_collapses_on_mobile
    (w : Window) (target : nat) (root : Node) (this : Sidebar) :
  current (sidebarRef this) = Some root ->
  let this' := handleClickOutside (Some w) target this in
  (contains root target = false ->
   (innerWidth w <=? mediumBreakpointPx this) = true ->
   collapsedSidebar (state this') = true /\
   lastInnerWidth (state this') = lastInnerWidth (state this) /\
   hideScrollbar (state this') = hideScrollbar (state this)) /\
  ((mediumBreakpointPx this <? innerWidth w) = true \/
   contains root target = true ->
   this' = this).
Proof.
  intros Href this'. unfold this', handleClickOutside. rewrite Href. split.
  - intros Hout Hle. rewrite Hout, Hle. repeat split.
  - intros [Habove | Hin].
    + destruct (innerWidth w <=? mediumBreakpointPx this) eqn:Hle.
      * rewrite (FloatOrder.leb_not_gtb _ _ Hle) in Habove. discriminate.
      * rewrite andb_false_r. reflexivity.
    + rewrite Hin. reflexivity.
Qed.

Lemma C3_outside_click_collapses_on_mobile_witness :
  let this :=
    mounted (constructor 0 (Some (windowOf 200)) (propsOf None "100px")) in
  collapsedSidebar (state this) = false /\
  collapsedSidebar (state (handleClickOutside (Some (windowOf 80)) 9 this))
  = true /\
  handleClickOutside (Some (windowOf 200)) 9 this = this /\
  handleClickOutside (Some (windowOf 80)) 3 this = this.
Proof.
  intro this.
  destruct (C3_outside_click_collapses_on_mobile
              (windowOf 80) 9 root this eq_refl) as [Hout _].
  destruct (C3_outside_click_collapses_on_mobile
              (windowOf 200) 9 root this eq_refl) as [_ Hdesktop].
  destruct (C3_outside_click_collapses_on_mobile
              (windowOf 80) 3 root this eq_refl) as [_ Hinside].
  split; [reflexivity|]. split; [exact (proj1 (Hout eq_refl eq_refl))|].
  split; [exact (Hdesktop (or_introl eq_refl))
         | exact (Hinside (or_intror eq_refl))].
Defined.

(** C4: when the update brings a different [initialSidebarState], the
    collapsed state becomes what the initialization rule gives for the new
    props, the freshly derived threshold and the current window, whatever
    state the instance had accumulated; the other two fields are kept. *)
Theorem C4_directive_change_recomputes
    (window : option Window) (prevProps : SidebarProps) (this : Sidebar) :
  initialSidebarState (props this) <> initialSidebarState prevProps ->
  let this' := componentDidUpdate window prevProps this in
  collapsedSidebar (state this')
  = shouldCollapse window (props this)
      (calculateMaxBreakpoint (md (breakpoints (theme (props this))))) /\
  (forall other : Sidebar,
      props other = props this ->
      collapsedSidebar (state (componentDidUpdate window prevProps other))
      = collapsedSidebar (state this')) /\
  lastInnerWidth (state this') = lastInnerWidth (state this) /\
  hideScrollbar (state this') = hideScrollbar (state this).
Proof.
  intros Hchanged this'.
  assert (Hgen : forall x : Sidebar,
             props x = props this ->
             collapsedSidebar (state (componentDidUpdate window prevProps x))
             = shouldCollapse window (props this)
                 (calculateMaxBreakpoint
                    (md (breakpoints (theme (props this)))))).
  { intros x Hx. unfold componentDidUpdate. cbn [props mediumBreakpointPx].
    rewrite Hx, (strictNotEqual_true _ _ Hchanged). reflexivity. }
  split; [apply Hgen; reflexivity|]. split.
  - intros other Ho. rewrite (Hgen other Ho). symmetry. apply Hgen.
    reflexivity.
  - unfold this', componentDidUpdate. cbn [props].
    rewrite (strictNotEqual_true _ _ Hchanged). split; reflexivity.
Qed.

Lemma C4_directive_change_recomputes_witness :
  let opened :=
    toggleCollapse
      (constructor 0 (Some (windowOf 50)) (propsOf (Some COLLAPSED) "100px")) in
  let this :=
    {| uid := uid opened;
       props := propsOf (Some AUTO) "100px";
       state := state opened;
       mediumBreakpointPx := mediumBreakpointPx opened;
       sidebarRef := sidebarRef opened |} in
  collapsedSidebar (state this) = false /\
  collapsedSidebar
    (state (componentDidUpdate (Some (windowOf 50))
              (propsOf (Some COLLAPSED) "100px") this))
  = true.
Proof.
  intros opened this. split; [reflexivity|].
  refine (proj1 (C4_directive_change_recomputes
                   (Some (windowOf 50)) (propsOf (Some COLLAPSED) "100px")
                   this _)).
  discriminate.
Defined.

(** C5: one toggle negates collapsed and touches nothing else; two
    toggles in a row give back the instance they started from. *)
Theorem C5_toggle_is_an_involution (this : Sidebar) :
  collapsedSidebar (state (toggleCollapse this))
  = negb (collapsedSidebar (state this)) /\
  lastInnerWidth (state (toggleCollapse this)) = lastInnerWidth (state this) /\
  hideScrollbar (state (toggleCollapse this)) = hideScrollbar (state this) /\
  toggleCollapse (toggleCollapse this) = this.
Proof.
  destruct this as [u p [c l h] bp r]. repeat split.
  unfold toggleCollapse, setState, merge. cbn. rewrite negb_involutive.
  reflexivity.
Qed.

End Handlers.

(** ** The listeners registered while the component is mounted *)

Module Listeners.

Import DOM Sidebar Examples.

Lemma Property_eqb_eq (p q : Property) : Property_eqb p q = true <-> p = q.
Proof. destruct p, q; cbn; split; congruence. Qed.

Lemma Callback_eqb_eq (f g : Callback) : Callback_eqb f g = true <-> f = g.
Proof.
  destruct f as [i p|m], g as [j q|n]; cbn; split; try congruence.
  - intro H. apply andb_prop in H as [Hi Hp].
    apply Nat.eqb_eq in Hi. apply Property_eqb_eq in Hp. congruence.
  - intro H. injection H as -> ->. apply andb_true_intro. split.
    + apply Nat.eqb_refl.
    + apply Property_eqb_eq. reflexivity.
  - intro H. apply Nat.eqb_eq in H. congruence.
  - intro H. injection H as ->. apply Nat.eqb_refl.
Qed.

Lemma Listener_eqb_eq (a b : Listener) : Listener_eqb a b = true <-> a = b.
Proof.
  destruct a as [s f], b as [t g]. unfold Listener_eqb. cbn [fst snd]. split.
  - intro H. apply andb_prop in H as [Hs Hf].
    apply String.eqb_eq in Hs. apply Callback_eqb_eq in Hf. congruence.
  - intro H. injection H as -> ->. apply andb_true_intro. split.
    + apply String.eqb_refl.
    + apply Callback_eqb_eq. reflexivity.
Qed.

Lemma Listener_eqb_neq (a b : Listener) : a <> b -> Listener_eqb a b = false.
Proof.
  intro H. destruct (Listener_eqb a b) eqn:E; [|reflexivity].
  apply Listener_eqb_eq in E. contradiction.
Qed.

Lemma add_absent (l : Listener) (ls : list Listener) :
  ~ In l ls -> add l ls = ls ++ [l].
Proof.
  intro Hnot. unfold add.
  destruct (existsb (Listener_eqb l) ls) eqn:E; [|reflexivity].
  apply existsb_exists in E as (x & Hin & Heq).
  apply Listener_eqb_eq in Heq. subst x. contradiction.
Qed.

Lemma add_present (l : Listener) (ls : list Listener) :
  In l ls -> add l ls = ls.
Proof.
  intro Hin. unfold add.
  replace (existsb (Listener_eqb l) ls) with true; [reflexivity|].
  symmetry. apply existsb_exists. exists l. split; [exact Hin|].
  apply Listener_eqb_eq. reflexivity.
Qed.

Lemma existsb_absent (l : Listener) (ls : list Listener) :
  existsb (Listener_eqb l) ls = false -> ~ In l ls.
Proof.
  intros E Hin.
  assert (H : existsb (Listener_eqb l) ls = true).
  { apply existsb_exists. exists l. split; [exact Hin|].
    apply Listener_eqb_eq. reflexivity. }
  congruence.
Qed.

(** The listener list of an event target never holds an entry twice. *)
Lemma add_NoDup (l : Listener) (ls : list Listener) :
  NoDup ls -> NoDup (add l ls).
Proof.
  intro Hnd. unfold add.
  destruct (existsb (Listener_eqb l) ls) eqn:E; [exact Hnd|].
  apply NoDup_app; [exact Hnd | constructor; [intros [] | constructor] |].
  intros x Hx [<- | []]. exact (existsb_absent _ _ E Hx).
Qed.

Lemma remove_absent (l : Listener) (ls : list Listener) :
  ~ In l ls -> remove l ls = ls.
Proof.
  induction ls as [|x r IH]; [reflexivity|]. intro Hnot. cbn.
  rewrite Listener_eqb_neq.
  - f_equal. apply IH. intro H. apply Hnot. right. exact H.
  - intros ->. apply Hnot. left. reflexivity.
Qed.

Lemma remove_appended (l : Listener) (ls : list Listener) :
  ~ In l ls -> remove l (ls ++ [l]) = ls.
Proof.
  induction ls as [|x r IH]; intro Hnot; cbn.
  - replace (Listener_eqb l l) with true; [reflexivity|].
    symmetry. apply Listener_eqb_eq. reflexivity.
  - rewrite Listener_eqb_neq.
    + f_equal. apply IH. intro H. apply Hnot. right. exact H.
    + intros ->. apply Hnot. left. reflexivity.
Qed.

Lemma remove_In (l x : Listener) (ls : list Listener) :
  In x (remove l ls) -> In x ls.
Proof.
  induction ls as [|y r IH]; cbn; [tauto|].
  destruct (Listener_eqb l y); cbn; intuition.
Qed.

Lemma remove_keeps (l x : Listener) (ls : list Listener) :
  x <> l -> In x ls -> In x (remove l ls).
Proof.
  intro Hne. induction ls as [|y r IH]; cbn; [tauto|].
  intros [-> | Hin].
  - rewrite Listener_eqb_neq by congruence. left. reflexivity.
  - destruct (Listener_eqb l y); [exact Hin | right; exact (IH Hin)].
Qed.

Lemma remove_NoDup_gone (l : Listener) (ls : list Listener) :
  NoDup ls -> ~ In l (remove l ls).
Proof.
  induction 1 as [|x r Hx Hnd IH]; cbn; [tauto|].
  destruct (Listener_eqb l x) eqn:E.
  - apply Listener_eqb_eq in E. subst x. exact Hx.
  - intros [-> | Hin]; [|exact (IH Hin)].
    rewrite (proj2 (Listener_eqb_eq l l) eq_refl) in E. discriminate.
Qed.

Lemma filter_none (f : Listener -> bool) (ls : list Listener) :
  (forall l, In l ls -> f l = false) -> filter f ls = [].
Proof.
  induction ls as [|x r IH]; [reflexivity|]. intro H. cbn.
  rewrite (H x (or_introl eq_refl)). apply IH.
  intros l Hl. apply H. right. exact Hl.
Qed.

(** Outside a browser the mount hook throws. *)
Lemma componentDidMount_without_window (this : Sidebar) (d : option Document) :
  componentDidMount this {| window := None; document := d |} = Throw TypeError.
Proof. reflexivity. Qed.

(** C9: in a browser where no listener of this instance is registered,
    mounting appends exactly two listeners, [resize] on the window with the
    instance's [checkMobileOnResize] and [mousedown] on the document with
    its [handleClickOutside]; unmounting removes the same two and gives the
    browser back as it was, so none of the instance's callbacks stays
    registered. Whatever the listener lists hold when the unmount hook runs,
    after it the two listeners are in neither list, and every other
    listener is still there. *)
Theorem C9_listeners_scoped_to_mount
    (this : Sidebar) (w : Window) (d : Document) :
  (forall l, In l (windowListeners w) -> ownedBy (uid this) l = false) ->
  (forall l, In l (documentListeners d) -> ownedBy (uid this) l = false) ->
  let g := {| window := Some w; document := Some d |} in
  let w1 := {| innerWidth := innerWidth w;
               windowListeners := windowListeners w ++ [resizeListener this] |} in
  let d1 := {| documentListeners :=
                 documentListeners d ++ [mousedownListener this] |} in
  let g1 := {| window := Some w1; document := Some d1 |} in
  componentDidMount this g = Normal g1 /\
  filter (ownedBy (uid this)) (windowListeners w1) = [resizeListener this] /\
  filter (ownedBy (uid this)) (documentListeners d1)
  = [mousedownListener this] /\
  componentWillUnmount this g1
  = Normal {| window := Some {| innerWidth := innerWidth w;
                                windowListeners := windowListeners w |};
              document := Some d |} /\
  (forall (w2 : Window) (d2 : Document),
      NoDup (windowListeners w2) -> NoDup (documentListeners d2) ->
      exists lw ld,
        componentWillUnmount this {| window := Some w2; document := Some d2 |}
        = Normal {| window := Some {| innerWidth := innerWidth w2;
                                      windowListeners := lw |};
                    document := Some {| documentListeners := ld |} |} /\
        ~ In (resizeListener this) lw /\
        ~ In (mousedownListener this) ld /\
        (forall l, l <> resizeListener this ->
                   (In l lw <-> In l (windowListeners w2))) /\
        (forall l, l <> mousedownListener this ->
                   (In l ld <-> In l (documentListeners d2)))).
Proof.
  intros Hw Hd g w1 d1 g1.
  assert (Hnw : ~ In (resizeListener this) (windowListeners w)).
  { intro Hin. apply Hw in Hin. unfold ownedBy, resizeListener in Hin.
    cbn in Hin. rewrite Nat.eqb_refl in Hin. discriminate. }
  assert (Hnd : ~ In (mousedownListener this) (documentListeners d)).
  { intro Hin. apply Hd in Hin. unfold ownedBy, mousedownListener in Hin.
    cbn in Hin. rewrite Nat.eqb_refl in Hin. discriminate. }
  split.
  { unfold componentDidMount, onWindow, onDocument, bind, g, g1, w1, d1.
    cbn [window document innerWidth windowListeners documentListeners].
    rewrite (add_absent _ _ Hnw), (add_absent _ _ Hnd). reflexivity. }
  split.
  { cbn [windowListeners w1]. rewrite filter_app, (filter_none _ _ Hw).
    cbn. rewrite Nat.eqb_refl. reflexivity. }
  split.
  { cbn [documentListeners d1]. rewrite filter_app, (filter_none _ _ Hd).
    cbn. rewrite Nat.eqb_refl. reflexivity. }
  split.
  { unfold componentWillUnmount, onWindow, onDocument, bind, g1, w1, d1.
    cbn [window document innerWidth windowListeners documentListeners].
    rewrite (remove_appended _ _ Hnw), (remove_appended _ _ Hnd).
    destruct d. reflexivity. }
  intros w2 d2 Hn2 Hm2.
  exists (remove (resizeListener this) (windowListeners w2)),
         (remove (mousedownListener this) (documentListeners d2)).
  split; [reflexivity|].
  split; [apply remove_NoDup_gone, Hn2|].
  split; [apply remove_NoDup_gone, Hm2|].
  split; intros l Hl; split;
    (apply remove_In || apply remove_keeps; exact Hl).
Qed.

Lemma C9_listeners_scoped_to_mount_witness :
  let this := constructor 4 (Some (windowOf 200)) (propsOf None "100px") in
  componentDidMount this (browser 200)
  = Normal
      {| window :=
           Some {| innerWidth := 200;
                   windowListeners :=
                     [("resize"%string, Foreign 7);
                      ("resize"%string, Bound 4 checkMobileOnResize_)] |};
         document :=
           Some {| documentListeners :=
                     [("mousedown"%string, Bound 4 handleClickOutside_)] |} |}.
Proof.
  intro this.
  refine (proj1 (C9_listeners_scoped_to_mount this
                   {| innerWidth := 200;
                      windowListeners := [("resize"%string, Foreign 7)] |}
                   {| documentListeners := [] |} _ _)).
  - intros l [<- | []]. reflexivity.
  - intros l [].
Defined.

End Listeners.

(** ** The order of binary64 values is a linear order away from NaN *)

Module FloatTrans.

Import Rank.
Local Open Scope Z_scope.

Lemma SFcompare_rank (a b : spec_float) :
  SFcompare a b
  = match rank a, rank b with
    | Some ka, Some kb => Some (lex3 ka kb)
    | _, _ => None
    end.
Proof.
  destruct a as [sa|sa| |sa ma ea], b as [sb|sb| |sb mb eb]; cbn;
    try reflexivity;
    try (destruct sa; reflexivity);
    try (destruct sb; reflexivity);
    try (destruct sa, sb; reflexivity).
  change (PosDef.Pos.compare_cont Eq ma mb) with (Pos.compare ma mb).
  destruct sa, sb; cbn; try reflexivity.
  rewrite (Z.compare_opp ea eb), (Z.compare_antisym ea eb).
  destruct (ea ?= eb); reflexivity.
Qed.

Lemma lex3_Lt (a b : Z * Z * Z) : lex3 a b = Lt <-> lexLt a b.
Proof.
  destruct a as [[a1 a2] a3], b as [[b1 b2] b3]. unfold lex3, lexLt.
  destruct (Z.compare_spec a1 b1), (Z.compare_spec a2 b2),
    (Z.compare_spec a3 b3); split; intro Hyp; try congruence; try lia;
    reflexivity.
Qed.

Lemma lex3_Eq (a b : Z * Z * Z) : lex3 a b = Eq <-> a = b.
Proof.
  destruct a as [[a1 a2] a3], b as [[b1 b2] b3]. unfold lex3.
  destruct (Z.compare_spec a1 b1), (Z.compare_spec a2 b2),
    (Z.compare_spec a3 b3); split; intro Hyp; try congruence;
    try (injection Hyp; intros; lia).
Qed.

Lemma lexLt_trans (a b c : Z * Z * Z) : lexLt a b -> lexLt b c -> lexLt a c.
Proof.
  destruct a as [[a1 a2] a3], b as [[b1 b2] b3], c as [[c1 c2] c3].
  unfold lexLt. lia.
Qed.

Lemma lexLt_irrefl (a : Z * Z * Z) : ~ lexLt a a.
Proof. destruct a as [[a1 a2] a3]. unfold lexLt. lia. Qed.

Local Open Scope float_scope.

(** [x < y] and [x <= y] on Numbers, read through the ranks. *)
Lemma ltb_rank (x y : float) :
  (x <? y) = true <->
  exists kx ky, rank (Prim2SF x) = Some kx /\ rank (Prim2SF y) = Some ky /\
                lexLt kx ky.
Proof.
  rewrite ltb_spec. unfold SFltb. rewrite SFcompare_rank.
  destruct (rank (Prim2SF x)) as [kx|], (rank (Prim2SF y)) as [ky|].
  - split.
    + intro H. exists kx, ky. repeat split. apply lex3_Lt.
      destruct (lex3 kx ky); congruence.
    + intros (kx' & ky' & Hx & Hy & Hlt).
      injection Hx as <-. injection Hy as <-.
      apply lex3_Lt in Hlt. rewrite Hlt. reflexivity.
  - split; [discriminate | intros (? & ? & _ & H & _); discriminate].
  - split; [discriminate | intros (? & ? & H & _); discriminate].
  - split; [discriminate | intros (? & ? & H & _); discriminate].
Qed.

Lemma leb_rank (x y : float) :
  (x <=? y) = true <->
  exists kx ky, rank (Prim2SF x) = Some kx /\ rank (Prim2SF y) = Some ky /\
                (lexLt kx ky \/ kx = ky).
Proof.
  rewrite leb_spec. unfold SFleb. rewrite SFcompare_rank.
  destruct (rank (Prim2SF x)) as [kx|], (rank (Prim2SF y)) as [ky|].
  - split.
    + intro H. exists kx, ky. repeat split.
      destruct (lex3 kx ky) eqn:E; try discriminate.
      * right. apply lex3_Eq, E.
      * left. apply lex3_Lt, E.
    + intros (kx' & ky' & Hx & Hy & [Hlt | Heq]).
      * injection Hx as <-. injection Hy as <-.
        apply lex3_Lt in Hlt. rewrite Hlt. reflexivity.
      * injection Hx as <-. injection Hy as <-.
        apply lex3_Eq in Heq. rewrite Heq. reflexivity.
  - split; [discriminate | intros (? & ? & _ & H & _); discriminate].
  - split; [discriminate | intros (? & ? & H & _); discriminate].
  - split; [discriminate | intros (? & ? & H & _); discriminate].
Qed.

Lemma ltb_trans (x y z : float) :
  (x <? y) = true -> (y <? z) = true -> (x <? z) = true.
Proof.
  rewrite !ltb_rank.
  intros (kx & ky & Hx & Hy & Hxy) (ky' & kz & Hy' & Hz & Hyz).
  rewrite Hy in Hy'. injection Hy' as <-.
  exists kx, kz. repeat split; try assumption.
  exact (lexLt_trans _ _ _ Hxy Hyz).
Qed.

Lemma leb_trans (x y z : float) :
  (x <=? y) = true -> (y <=? z) = true -> (x <=? z) = true.
Proof.
  rewrite !leb_rank.
  intros (kx & ky & Hx & Hy & Hxy) (ky' & kz & Hy' & Hz & Hyz).
  rewrite Hy in Hy'. injection Hy' as <-.
  exists kx, kz. repeat split; try assumption.
  destruct Hxy as [Hxy | ->], Hyz as [Hyz | <-]; auto.
  left. exact (lexLt_trans _ _ _ Hxy Hyz).
Qed.

Lemma leb_ltb_trans (x y z : float) :
  (x <=? y) = true -> (y <? z) = true -> (x <? z) = true.
Proof.
  rewrite leb_rank, !ltb_rank.
  intros (kx & ky & Hx & Hy & Hxy) (ky' & kz & Hy' & Hz & Hyz).
  rewrite Hy in Hy'. injection Hy' as <-.
  exists kx, kz. repeat split; try assumption.
  destruct Hxy as [Hxy | ->]; [exact (lexLt_trans _ _ _ Hxy Hyz) | exact Hyz].
Qed.

Lemma ltb_irrefl (x : float) : (x <? x) = false.
Proof.
  destruct (x <? x) eqn:E; [|reflexivity].
  apply ltb_rank in E as (kx & ky & Hx & Hy & Hlt).
  rewrite Hx in Hy. injection Hy as <-.
  destruct (lexLt_irrefl _ Hlt).
Qed.

(** Nothing is at most [NaN], and [NaN] is at most nothing. *)
Lemma leb_nan_r (x : float) : (x <=? nan) = false.
Proof.
  rewrite leb_spec. unfold SFleb. rewrite SFcompare_rank.
  change (Prim2SF nan) with S754_nan. cbn.
  destruct (rank (Prim2SF x)); reflexivity.
Qed.

End FloatTrans.

(** ** Integer widths against an integer breakpoint *)

Module IntegerWidths.

Import DOM Sidebar Examples Rank.
Local Open Scope float_scope.

Lemma allFrom_at (check : Z -> bool) (fuel : nat) (k j : Z) :
  allFrom check fuel k = true ->
  (k <= j < k + Z.of_nat fuel)%Z -> check j = true.
Proof.
  revert k. induction fuel as [|fuel IH]; intros k Hall Hj; [lia|].
  cbn [allFrom] in Hall. apply andb_prop in Hall as [Hk Hrest].
  destruct (Z.eq_dec j k) as [-> | Hne]; [exact Hk|].
  apply (IH (k + 1)%Z Hrest). lia.
Qed.

Lemma stepsUp_all : allFrom stepsUp (Z.to_nat bound) 0 = true.
Proof. vm_compute. reflexivity. Qed.

Lemma thresholdBetween_all : allFrom thresholdBetween (Z.to_nat bound) 0 = true.
Proof. vm_compute. reflexivity. Qed.

Lemma stepsUp_at (k : Z) : (0 <= k < bound)%Z -> stepsUp k = true.
Proof.
  intro Hk. apply (allFrom_at _ _ 0%Z k stepsUp_all).
  rewrite Z2Nat.id by (unfold bound; lia). lia.
Qed.

Lemma thresholdBetween_at (k : Z) :
  (0 <= k < bound)%Z -> thresholdBetween k = true.
Proof.
  intro Hk. apply (allFrom_at _ _ 0%Z k thresholdBetween_all).
  rewrite Z2Nat.id by (unfold bound; lia). lia.
Qed.

Lemma ofInteger_truthy (k : Z) :
  (0 < k <= bound)%Z -> JS.truthy (JS.ofInteger k) = true.
Proof.
  intro Hk. assert (H := stepsUp_at (k - 1) ltac:(lia)).
  unfold stepsUp in H. apply andb_prop in H as [_ H].
  replace (k - 1 + 1)%Z with k in H by lia. exact H.
Qed.

Lemma ofInteger_step (k : Z) :
  (0 <= k < bound)%Z -> (JS.ofInteger k <? JS.ofInteger (k + 1)) = true.
Proof.
  intro Hk. assert (H := stepsUp_at k Hk). unfold stepsUp in H.
  apply andb_prop in H as [H _]. exact H.
Qed.

Lemma ofInteger_increasing (a b : Z) :
  (0 <= a < b)%Z -> (b <= bound)%Z ->
  (JS.ofInteger a <? JS.ofInteger b) = true.
Proof.
  intros Hab Hb.
  replace b with (a + 1 + Z.of_nat (Z.to_nat (b - a - 1)))%Z by lia.
  assert (Hfuel : (a + 1 + Z.of_nat (Z.to_nat (b - a - 1)) <= bound)%Z)
    by lia.
  induction (Z.to_nat (b - a - 1)) as [|d IH].
  - rewrite Z.add_0_r. apply ofInteger_step. lia.
  - apply (FloatTrans.ltb_trans _ (JS.ofInteger (a + 1 + Z.of_nat d))).
    + apply IH. lia.
    + replace (a + 1 + Z.of_nat (S d))%Z with (a + 1 + Z.of_nat d + 1)%Z
        by lia.
      apply ofInteger_step. lia.
Qed.

(** With the threshold derived from the integer breakpoint [n], an integer
    width is at most the threshold exactly when it is below [n]. *)
Lemma threshold_splits_integers (w n : Z) :
  (0 < n <= bound)%Z -> (0 <= w <= bound)%Z ->
  (JS.ofInteger w <=? JS.ofInteger n - margin) = (w <? n)%Z.
Proof.
  intros Hn Hw.
  assert (Hb := thresholdBetween_at (n - 1) ltac:(lia)).
  unfold thresholdBetween in Hb.
  replace (n - 1 + 1)%Z with n in Hb by lia.
  apply andb_prop in Hb as [Hlow Hhigh].
  destruct (Z.ltb_spec w n) as [Hlt | Hge].
  - destruct (Z.eq_dec w (n - 1)) as [-> | Hne]; [exact Hlow|].
    apply (FloatTrans.leb_trans _ (JS.ofInteger (n - 1))); [|exact Hlow].
    apply FloatOrder.ltb_leb, ofInteger_increasing; lia.
  - destruct (JS.ofInteger w <=? JS.ofInteger n - margin) eqn:E;
      [|reflexivity].
    assert (Hlt : (JS.ofInteger w <? JS.ofInteger n) = true)
      by exact (FloatTrans.leb_ltb_trans _ _ _ E Hhigh).
    destruct (Z.eq_dec w n) as [-> | Hne].
    + rewrite FloatTrans.ltb_irrefl in Hlt. discriminate.
    + assert (Hgt := ofInteger_increasing n w ltac:(lia) ltac:(lia)).
      rewrite (FloatOrder.ltb_asym _ _ Hgt) in Hlt. discriminate.
Qed.

(** X3. Under the AUTO or unset directive, with an integer window width
    [w] and a theme breakpoint that is a decimal numeral for [n] followed
    by a unit (both between 1 and 65536), the sidebar starts collapsed
    exactly when [w < n]: the margin turns the [<=] of the source into a
    strict comparison against the theme's integer. *)
Theorem auto_collapses_strictly_below_integer_breakpoint
    (uid : nat) (w : Z) (listeners : list Listener) (props : SidebarProps)
    (digits rest : string) :
  isAuto props ->
  md (breakpoints (theme props)) = (digits ++ rest)%string ->
  digits <> EmptyString ->
  Spec.allDigits digits = true ->
  Spec.startsWithDigit rest = false ->
  (0 < w <= 65536)%Z ->
  (0 < Spec.decimalValue digits <= 65536)%Z ->
  collapsedSidebar
    (state (constructor uid
              (Some {| innerWidth := JS.ofInteger w;
                       windowListeners := listeners |}) props))
  = (w <? Spec.decimalValue digits)%Z.
Proof.
  intros Hauto Hmd Hne Hd Hr Hw Hn.
  rewrite Initialization.constructor_collapsed, Hmd.
  rewrite (Initialization.shouldCollapse_auto _ props _ Hauto).
  cbn [innerWidth].
  rewrite (ofInteger_truthy w) by (unfold bound; lia).
  unfold calculateMaxBreakpoint.
  rewrite (ParseInt.parseInt_numeral digits rest Hne Hd Hr).
  apply threshold_splits_integers; unfold bound; lia.
Qed.

Lemma auto_collapses_strictly_below_integer_breakpoint_witness :
  collapsedSidebar
    (state (constructor 0 (Some (windowOf (JS.ofInteger 767)))
              (propsOf None "768px"))) = true /\
  collapsedSidebar
    (state (constructor 0 (Some (windowOf (JS.ofInteger 768)))
              (propsOf None "768px"))) = false.
Proof.
  split.
  - refine (auto_collapses_strictly_below_integer_breakpoint
              0 767 [] (propsOf None "768px") "768" "px"
              (or_intror eq_refl) eq_refl _ eq_refl eq_refl _ _).
    + discriminate.
    + lia.
    + cbn. lia.
  - refine (auto_collapses_strictly_below_integer_breakpoint
              0 768 [] (propsOf None "768px") "768" "px"
              (or_intror eq_refl) eq_refl _ eq_refl eq_refl _ _).
    + discriminate.
    + lia.
    + cbn. lia.
Defined.

End IntegerWidths.

(** ** A breakpoint string without a numeral *)

Module Degenerate.

Import DOM Sidebar Examples Session.
Local Open Scope float_scope.

Lemma parseInt_no_numeral (value : string) :
  hasNoNumeral value = true -> JS.parseInt value 10 = nan.
Proof.
  unfold hasNoNumeral, JS.parseInt. intro H. apply negb_true_iff in H.
  destruct (JS.stripSign (JS.trimStart value)) as [negative str].
  cbn [snd] in H.
  change ((10 =? 0) || (2 <=? 10) && (10 <=? 36))%Z with true.
  change ((10 =? 0) || (10 =? 16))%Z with false.
  change (if (10 =? 0)%Z then 10%Z else 10%Z) with 10%Z.
  destruct (JS.stripHexPrefix str);
    cbv beta iota zeta; rewrite (ParseInt.nondigit_stops str None H);
    reflexivity.
Qed.

(** A no-break space before the numeral is skipped like any other white
    space. *)
Lemma no_break_space_is_skipped :
  hasNoNumeral (String (ascii_of_N 160) "100px") = false /\
  calculateMaxBreakpoint (String (ascii_of_N 160) "100px") = ninetyNine98.
Proof. split; reflexivity. Qed.

Lemma threshold_without_numeral (value : string) :
  hasNoNumeral value = true -> calculateMaxBreakpoint value = nan.
Proof.
  intro H. unfold calculateMaxBreakpoint. rewrite (parseInt_no_numeral _ H).
  reflexivity.
Qed.

(** X1. A theme breakpoint with no numeral at its start ("", "md",
    "px100") makes the threshold NaN, and a NaN threshold switches every
    automatic collapse off: the AUTO rule starts expanded at every width,
    a resize never collapses, and a click outside changes nothing. *)
Theorem breakpoint_without_numeral_disables_auto_collapse
    (uid : nat) (window : option Window) (props : SidebarProps) :
  hasNoNumeral (md (breakpoints (theme props))) = true ->
  let this := constructor uid window props in
  mediumBreakpointPx this = nan /\
  (isAuto props -> collapsedSidebar (state this) = false) /\
  (forall (that : Sidebar) (w : option Window) (target : nat),
      mediumBreakpointPx that = nan ->
      collapsedSidebar (state (snd (checkMobileOnResize w that)))
      = collapsedSidebar (state that) /\
      handleClickOutside w target that = that).
Proof.
  intros Hno this.
  assert (Hnan : mediumBreakpointPx this = nan)
    by exact (threshold_without_numeral _ Hno).
  split; [exact Hnan|]. split.
  - intro Hauto. unfold this. rewrite Initialization.constructor_collapsed.
    rewrite (threshold_without_numeral _ Hno).
    destruct window as [w|].
    + rewrite (Initialization.shouldCollapse_auto w props nan Hauto).
      rewrite FloatTrans.leb_nan_r. destruct (JS.truthy (innerWidth w));
        reflexivity.
    + unfold shouldCollapse. destruct Hauto as [-> | ->]; reflexivity.
  - intros that w target Hthat. split.
    + destruct w as [w|]; [|reflexivity].
      unfold checkMobileOnResize. rewrite Hthat, FloatTrans.leb_nan_r.
      rewrite andb_false_r. reflexivity.
    + destruct w as [w|]; [|reflexivity].
      unfold handleClickOutside. rewrite Hthat, FloatTrans.leb_nan_r.
      destruct (current (sidebarRef that)); [|reflexivity].
      rewrite andb_false_r. reflexivity.
Qed.

Lemma breakpoint_without_numeral_disables_auto_collapse_witness :
  collapsedSidebar
    (state (constructor 0 (Some (windowOf 50)) (propsOf (Some AUTO) "md")))
  = false.
Proof.
  refine (proj1 (proj2
    (breakpoint_without_numeral_disables_auto_collapse
       0 (Some (windowOf 50)) (propsOf (Some AUTO) "md") eq_refl))
    (or_introl eq_refl)).
Defined.

(** X2. The threshold reads the numeral and nothing after it: the unit of
    the breakpoint is ignored, so "768px", "768em" and "768" all give the
    same threshold. *)
Theorem unit_of_breakpoint_is_ignored (digits rest rest' : string) :
  digits <> EmptyString ->
  Spec.allDigits digits = true ->
  Spec.startsWithDigit rest = false ->
  Spec.startsWithDigit rest' = false ->
  calculateMaxBreakpoint (digits ++ rest)
  = calculateMaxBreakpoint (digits ++ rest').
Proof.
  intros Hne Hd Hr Hr'. unfold calculateMaxBreakpoint.
  rewrite (ParseInt.parseInt_numeral digits rest Hne Hd Hr).
  rewrite (ParseInt.parseInt_numeral digits rest' Hne Hd Hr').
  reflexivity.
Qed.

Lemma unit_of_breakpoint_is_ignored_witness :
  calculateMaxBreakpoint "768px" = calculateMaxBreakpoint "768em".
Proof.
  refine (unit_of_breakpoint_is_ignored "768" "px" "em" _
            eq_refl eq_refl eq_refl).
  discriminate.
Defined.

End Degenerate.

(** ** What the handlers leave alone *)

Module HandlerLaws.

Import DOM Sidebar Examples Session.
Local Open Scope float_scope.

(** X4. The two automatic handlers only ever collapse: whatever the
    window, the target and the instance, a sidebar that is collapsed stays
    collapsed through [handleClickOutside] and [checkMobileOnResize], and
    neither touches the props, the threshold, the ref or the scrollbar
    flag. *)
Theorem automatic_handlers_never_expand
    (window : option Window) (target : nat) (this : Sidebar) :
  let clicked := handleClickOutside window target this in
  let resized := snd (checkMobileOnResize window this) in
  (collapsedSidebar (state this) = true ->
   collapsedSidebar (state clicked) = true /\
   collapsedSidebar (state resized) = true) /\
  lastInnerWidth (state clicked) = lastInnerWidth (state this) /\
  hideScrollbar (state clicked) = hideScrollbar (state this) /\
  hideScrollbar (state resized) = hideScrollbar (state this) /\
  (uid clicked, props clicked, mediumBreakpointPx clicked, sidebarRef clicked)
  = (uid this, props this, mediumBreakpointPx this, sidebarRef this) /\
  (uid resized, props resized, mediumBreakpointPx resized, sidebarRef resized)
  = (uid this, props this, mediumBreakpointPx this, sidebarRef this).
Proof.
  intros clicked resized. unfold clicked, resized.
  unfold handleClickOutside, checkMobileOnResize.
  destruct window as [w|]; [|repeat split; auto].
  destruct (current (sidebarRef this)) as [el|];
    destruct ((innerWidth w <? lastInnerWidth (state this))
              && (innerWidth w <=? mediumBreakpointPx this));
    try destruct (negb (contains el target)
                  && (innerWidth w <=? mediumBreakpointPx this));
    repeat split; auto.
Qed.

Lemma automatic_handlers_never_expand_witness :
  let this :=
    mounted (constructor 0 (Some (windowOf 50)) (propsOf None "100px")) in
  collapsedSidebar (state (handleClickOutside (Some (windowOf 500)) 9 this))
  = true /\
  collapsedSidebar
    (state (snd (checkMobileOnResize (Some (windowOf 500)) this))) = true.
Proof.
  intro this.
  exact (proj1 (automatic_handlers_never_expand
                  (Some (windowOf 500)) 9 this) eq_refl).
Defined.

(** X5. A second [resize] event at the same width does nothing: the
    handler applied again to its own result returns that result. *)
Theorem resize_at_same_width_is_idempotent
    (window : option Window) (this : Sidebar) :
  checkMobileOnResize window (snd (checkMobileOnResize window this))
  = checkMobileOnResize window this.
Proof.
  destruct window as [w|]; [|reflexivity].
  destruct this as [u p [c l h] bp r].
  unfold checkMobileOnResize. cbn.
  rewrite FloatTrans.ltb_irrefl. cbn.
  destruct ((innerWidth w <? l) && (innerWidth w <=? bp)); reflexivity.
Qed.

(** X6. A second pointer-down on the same target in the same window does
    nothing more than the first. *)
Theorem click_outside_is_idempotent
    (window : option Window) (target : nat) (this : Sidebar) :
  handleClickOutside window target (handleClickOutside window target this)
  = handleClickOutside window target this.
Proof.
  destruct window as [w|]; [|reflexivity].
  destruct this as [u p [c l h] bp [[el|]]]; [|reflexivity].
  unfold handleClickOutside. cbn.
  destruct (negb (contains el target) && (innerWidth w <=? bp)) eqn:E;
    cbn; rewrite E; reflexivity.
Qed.

(** X7. The scrollbar flag and the collapse logic do not see each other:
    [hideScrollbar] changes neither collapsed nor the recorded width, the
    last value given wins, and it commutes with the toggle, the outside
    click, the resize handler and the update hook. *)
Theorem hideScrollbar_is_independent
    (window : option Window) (target : nat) (prevProps : SidebarProps)
    (a b : bool) (this : Sidebar) :
  collapsedSidebar (state (setHideScrollbar a this))
  = collapsedSidebar (state this) /\
  lastInnerWidth (state (setHideScrollbar a this))
  = lastInnerWidth (state this) /\
  hideScrollbar (state (setHideScrollbar a this)) = a /\
  setHideScrollbar b (setHideScrollbar a this) = setHideScrollbar b this /\
  setHideScrollbar a (toggleCollapse this)
  = toggleCollapse (setHideScrollbar a this) /\
  setHideScrollbar a (handleClickOutside window target this)
  = handleClickOutside window target (setHideScrollbar a this) /\
  setHideScrollbar a (snd (checkMobileOnResize window this))
  = snd (checkMobileOnResize window (setHideScrollbar a this)) /\
  setHideScrollbar a (componentDidUpdate window prevProps this)
  = componentDidUpdate window prevProps (setHideScrollbar a this).
Proof.
  destruct this as [u p [c l h] bp [cur]].
  repeat split.
  - unfold handleClickOutside. cbn. destruct window as [w|]; [|reflexivity].
    destruct cur as [el|]; [|reflexivity].
    destruct (negb (contains el target) && (innerWidth w <=? bp));
      reflexivity.
  - unfold checkMobileOnResize. cbn. destruct window as [w|]; [|reflexivity].
    cbn. destruct ((innerWidth w <? l) && (innerWidth w <=? bp));
      reflexivity.
  - unfold componentDidUpdate. cbn.
    destruct (strictNotEqual (initialSidebarState p)
                (initialSidebarState prevProps)); reflexivity.
Qed.

(** X8. [componentDidUpdate] always leaves the threshold derived from the
    current theme, and applying it twice is applying it once; but when the
    directive is the same as before, a new theme breakpoint moves the
    threshold only: the state, collapsed included, is kept, even where the
    initialization rule would now decide otherwise. *)
Theorem update_refreshes_threshold_not_state
    (window : option Window) (prevProps : SidebarProps) (this : Sidebar) :
  let this' := componentDidUpdate window prevProps this in
  mediumBreakpointPx this'
  = calculateMaxBreakpoint (md (breakpoints (theme (props this)))) /\
  props this' = props this /\
  componentDidUpdate window prevProps this' = this' /\
  (initialSidebarState (props this) = initialSidebarState prevProps ->
   state this' = state this).
Proof.
  intro this'. unfold this'.
  destruct this as [u p [c l h] bp r]. unfold componentDidUpdate. cbn.
  destruct (strictNotEqual (initialSidebarState p)
              (initialSidebarState prevProps)) eqn:E; cbn; rewrite ?E.
  - split; [reflexivity|]. split; [reflexivity|]. split; [reflexivity|].
    intro Hsame. rewrite Hsame, Handlers.strictNotEqual_false in E.
    discriminate.
  - split; [reflexivity|]. split; [reflexivity|]. split; reflexivity.
Qed.

(** The theme breakpoint grows from "100px" to "1000px" at width 500 under
    AUTO: the rule would now collapse, the update does not. *)
Lemma update_refreshes_threshold_not_state_witness :
  let this :=
    withProps (propsOf (Some AUTO) "1000px")
      (constructor 0 (Some (windowOf 500)) (propsOf (Some AUTO) "100px")) in
  let this' :=
    componentDidUpdate (Some (windowOf 500)) (propsOf (Some AUTO) "100px")
      this in
  shouldCollapse (Some (windowOf 500)) (props this')
    (mediumBreakpointPx this') = true /\
  collapsedSidebar (state this') = false.
Proof.
  intros this this'. split; [reflexivity|].
  destruct (update_refreshes_threshold_not_state
              (Some (windowOf 500)) (propsOf (Some AUTO) "100px") this)
    as (_ & _ & _ & Hkeep).
  unfold this'. rewrite (Hkeep eq_refl). reflexivity.
Defined.

(** X14. The AUTO rule is monotone: if it collapses at some width it
    collapses at every smaller available width, and at the same width for
    every larger threshold. The one hole is the width it takes for
    unavailable: at width 0 it never collapses, whatever it does above. *)
Theorem auto_rule_is_monotone
    (w1 w2 : Window) (props : SidebarProps) (bp bp' : float) :
  isAuto props ->
  shouldCollapse (Some w2) props bp = true ->
  (JS.truthy (innerWidth w1) = true ->
   (innerWidth w1 <=? innerWidth w2) = true ->
   shouldCollapse (Some w1) props bp = true) /\
  ((bp <=? bp') = true -> shouldCollapse (Some w2) props bp' = true) /\
  (innerWidth w1 = 0 -> shouldCollapse (Some w1) props bp = false).
Proof.
  intros Hauto H2.
  rewrite (Initialization.shouldCollapse_auto w2 props bp Hauto) in H2.
  destruct (JS.truthy (innerWidth w2)) eqn:Ht2; [|discriminate].
  split; [|split].
  - intros Ht1 Hle.
    rewrite (Initialization.shouldCollapse_auto w1 props bp Hauto), Ht1.
    exact (FloatTrans.leb_trans _ _ _ Hle H2).
  - intro Hle.
    rewrite (Initialization.shouldCollapse_auto w2 props bp' Hauto), Ht2.
    exact (FloatTrans.leb_trans _ _ _ H2 Hle).
  - intro Hz.
    rewrite (Initialization.shouldCollapse_auto w1 props bp Hauto), Hz.
    reflexivity.
Qed.

Lemma auto_rule_is_monotone_witness :
  shouldCollapse (Some (windowOf 40)) (propsOf None "100px") ninetyNine98
  = true /\
  shouldCollapse (Some (windowOf 0)) (propsOf None "100px") ninetyNine98
  = false.
Proof.
  destruct (auto_rule_is_monotone (windowOf 40) (windowOf 80)
              (propsOf None "100px") ninetyNine98 ninetyNine98
              (or_intror eq_refl) eq_refl) as (Hdown & _ & _).
  destruct (auto_rule_is_monotone (windowOf 0) (windowOf 80)
              (propsOf None "100px") ninetyNine98 ninetyNine98
              (or_intror eq_refl) eq_refl) as (_ & _ & Hzero).
  split; [exact (Hdown eq_refl eq_refl) | exact (Hzero eq_refl)].
Defined.

End HandlerLaws.

(** ** Invariants of a page over any sequence of events *)

Module SessionLaws.

Import DOM Sidebar Examples Session.
Local Open Scope float_scope.

#[local] Arguments calculateMaxBreakpoint : simpl never.

Lemma dispatch_Tracks uid0 root (p : Page) (e : Event) :
  Tracks uid0 root p -> Tracks uid0 root (dispatch p e).
Proof.
  destruct p as [w [u pr [c l h] bp [cur]]]. unfold Tracks. cbn.
  intros (Hl & Hbp & Hu & Hc). subst l u cur.
  destruct e as [width|target| |newValue|newProps]; cbn.
  - destruct ((width <? innerWidth w) && (width <=? bp)); repeat split;
      exact Hbp.
  - unfold handleClickOutside. cbn.
    destruct (negb (contains root target) && (innerWidth w <=? bp));
      repeat split; exact Hbp.
  - repeat split; exact Hbp.
  - repeat split; exact Hbp.
  - unfold componentDidUpdate. cbn.
    destruct (strictNotEqual (initialSidebarState newProps)
                (initialSidebarState pr)); repeat split.
Qed.

Lemma run_Tracks uid0 root (events : list Event) (p : Page) :
  Tracks uid0 root p -> Tracks uid0 root (run events p).
Proof.
  revert p. induction events as [|e es IH]; intros p Hp; [exact Hp|].
  apply (IH (dispatch p e)), dispatch_Tracks, Hp.
Qed.

(** X9. After any sequence of resizes, clicks, toggles, hovers and prop
    changes on a sidebar constructed in a window, the recorded width is the
    window's current width, the threshold is the one derived from the
    current theme, and the instance and its root element are the same. *)
Theorem recorded_width_and_threshold_stay_current
    (uid0 : nat) (w : Window) (props0 : SidebarProps) (root : Node)
    (events : list Event) :
  let p := run events (opened uid0 w props0 root) in
  lastInnerWidth (state (component p)) = innerWidth (view p) /\
  mediumBreakpointPx (component p)
  = calculateMaxBreakpoint (md (breakpoints (theme (props (component p))))) /\
  uid (component p) = uid0 /\
  current (sidebarRef (component p)) = Some root.
Proof.
  apply run_Tracks. repeat split.
Qed.

Lemma dispatch_wide (p : Page) (e : Event) :
  (innerWidth (view p) <=? mediumBreakpointPx (component p)) = false ->
  staysWide (mediumBreakpointPx (component p)) e = true ->
  let p' := dispatch p e in
  mediumBreakpointPx (component p') = mediumBreakpointPx (component p) /\
  (innerWidth (view p') <=? mediumBreakpointPx (component p')) = false /\
  collapsedSidebar (state (component p'))
  = xorb (collapsedSidebar (state (component p))) (isToggle e).
Proof.
  destruct p as [w [u pr [c l h] bp [cur]]]. cbn.
  intros Hwide He.
  destruct e as [width|target| |newValue|newProps]; cbn in He |- *.
  - apply negb_true_iff in He. rewrite He, andb_false_r. cbn.
    rewrite xorb_false_r. repeat split. exact He.
  - unfold handleClickOutside. cbn. rewrite Hwide.
    destruct cur as [el|]; rewrite ?andb_false_r; cbn;
      rewrite xorb_false_r; repeat split; exact Hwide.
  - rewrite xorb_true_r. repeat split. exact Hwide.
  - rewrite xorb_false_r. repeat split. exact Hwide.
  - discriminate.
Qed.

(** X10. While the window stays wider than the threshold and the props do
    not change, only the toggle moves the sidebar: after any such sequence
    of events, collapsed is its initial value flipped once per toggle. *)
Theorem on_a_wide_window_only_toggles_count
    (events : list Event) (p : Page) :
  (innerWidth (view p) <=? mediumBreakpointPx (component p)) = false ->
  forallb (staysWide (mediumBreakpointPx (component p))) events = true ->
  collapsedSidebar (state (component (run events p)))
  = xorb (collapsedSidebar (state (component p)))
      (Nat.odd (List.length (filter isToggle events))).
Proof.
  revert p. induction events as [|e es IH]; intros p Hwide Hall.
  - cbn. rewrite xorb_false_r. reflexivity.
  - cbn [forallb] in Hall. apply andb_prop in Hall as [He Hes].
    destruct (dispatch_wide p e Hwide He) as (Hbp & Hwide' & Hc).
    cbn [run fold_left]. fold (run es (dispatch p e)).
    rewrite (IH (dispatch p e) Hwide') by (rewrite Hbp; exact Hes).
    rewrite Hc. cbn [filter].
    destruct (isToggle e); cbn [List.length].
    + rewrite Nat.odd_succ, <- Nat.negb_odd.
      destruct (collapsedSidebar (state (component p))),
        (Nat.odd (List.length (filter isToggle es))); reflexivity.
    + rewrite xorb_false_r. reflexivity.
Qed.

Lemma on_a_wide_window_only_toggles_count_witness :
  collapsedSidebar
    (state (component
       (run [ToggleClick; MouseDown 9; Resize 300; ToggleClick; Resize 250;
             NavHover true; ToggleClick]
          (opened 0 (windowOf 200) (propsOf None "100px") root))))
  = true.
Proof.
  exact (on_a_wide_window_only_toggles_count
           [ToggleClick; MouseDown 9; Resize 300; ToggleClick; Resize 250;
            NavHover true; ToggleClick]
           (opened 0 (windowOf 200) (propsOf None "100px") root)
           eq_refl eq_refl).
Defined.

End SessionLaws.

(** ** Mounting and unmounting more than once *)

Module ListenerLaws.

Import DOM Sidebar Examples Listeners.

Lemma add_In (l : Listener) (ls : list Listener) : In l (add l ls).
Proof.
  unfold add. destruct (existsb (Listener_eqb l) ls) eqn:E.
  - apply existsb_exists in E as (x & Hin & Heq).
    apply Listener_eqb_eq in Heq. subst x. exact Hin.
  - apply in_or_app. right. left. reflexivity.
Qed.

Lemma add_idempotent (l : Listener) (ls : list Listener) :
  add l (add l ls) = add l ls.
Proof. apply add_present, add_In. Qed.

Lemma remove_NoDup (l : Listener) (ls : list Listener) :
  NoDup ls -> NoDup (remove l ls).
Proof.
  induction 1 as [|x r Hx Hnd IH]; cbn; [constructor|].
  destruct (Listener_eqb l x); [exact Hnd|].
  constructor; [|exact IH]. intro H. apply Hx. exact (remove_In _ _ _ H).
Qed.

Lemma remove_idempotent (l : Listener) (ls : list Listener) :
  NoDup ls -> remove l (remove l ls) = remove l ls.
Proof. intro H. apply remove_absent, remove_NoDup_gone, H. Qed.


(** X12. Mounting twice registers each listener once: the second
    [componentDidMount] leaves the browser as the first one made it. *)
Theorem mounting_twice_registers_once (this : Sidebar) (g : Globals) :
  bind (componentDidMount this g) (componentDidMount this)
  = componentDidMount this g.
Proof.
  destruct g as [[w|] [d|]]; cbn; try reflexivity.
  rewrite !add_idempotent. reflexivity.
Qed.

(** X13. Unmounting is safe to repeat and safe without a mount: on
    duplicate-free listener lists a second [componentWillUnmount] changes
    nothing, and where the two listeners are not registered the first one
    changes nothing either. *)
Theorem unmounting_again_changes_nothing
    (this : Sidebar) (w : Window) (d : Document) :
  NoDup (windowListeners w) -> NoDup (documentListeners d) ->
  let g := {| window := Some w; document := Some d |} in
  bind (componentWillUnmount this g) (componentWillUnmount this)
  = componentWillUnmount this g /\
  (~ In (resizeListener this) (windowListeners w) ->
   ~ In (mousedownListener this) (documentListeners d) ->
   componentWillUnmount this g = Normal g).
Proof.
  intros Hw Hd g. split.
  - cbn. rewrite (remove_idempotent _ _ Hw), (remove_idempotent _ _ Hd).
    reflexivity.
  - intros Hnw Hnd. cbn.
    rewrite (remove_absent _ _ Hnw), (remove_absent _ _ Hnd).
    destruct w, d. reflexivity.
Qed.

Lemma unmounting_again_changes_nothing_witness :
  componentWillUnmount
    (constructor 4 (Some (windowOf 200)) (propsOf None "100px")) (browser 200)
  = Normal (browser 200).
Proof.
  refine (proj2 (unmounting_again_changes_nothing
                   (constructor 4 (Some (windowOf 200)) (propsOf None "100px"))
                   {| innerWidth := 200;
                      windowListeners := [("resize"%string, Foreign 7)] |}
                   {| documentListeners := [] |} _ _) _ _).
  - constructor; [intros [] | constructor].
  - constructor.
  - intros [H | []]. discriminate.
  - intros [].
Defined.

End ListenerLaws.
